(** * LoRA fetcher and workflow configurator: a shallow embedding

    The development embeds the two Python modules of the repository,

    - [download_external_lora.py] (class [DownloadExternalLora]): dispatch of
      a URL on its provider prefix, derivation of the local file name, and
      the three provider-specific download paths;
    - [predict.py] (class [Predictor]): the rewrite of the workflow document
      by [update_workflow],

    and states the properties of the specification over them.

    Conventions of the embedding.

    - A Python [str] is a [string]; its characters are read as the code
      points below 256, which is the range on which [str.lower] and the
      URL splitting of [urllib.parse] are modelled exactly.
    - A Python exception is a value of [exn]; a computation that may raise
      returns a [result].  Code that touches the file system or starts a
      collaborator runs in the monad [M] over a [world]; a raised exception
      keeps the world reached so far, as in Python.
    - The collaborators the repository does not implement (the [pget]
      executable, the HuggingFace client, the tar reader) are the fields of
      a record [Externals]; every statement quantifies over it.
    - The decoding of percent escapes by [urllib.parse.unquote] is the
      parameter [Unquote]; texts without escapes do not depend on it.
    - [print] and [time.time] are not modelled: they affect neither the
      returned value nor the file system. *)

From Stdlib Require Import ZArith NArith Ascii Floats.
From stdpp Require Import gmap strings list fin_maps.

Local Open Scope Z_scope.

(** ** Python exceptions and results *)

Inductive exn : Type :=
| ValueError (msg : string)
| RuntimeError (msg : string)
| IndexError (msg : string)
| KeyError (key : string)
| TypeError (msg : string)
| TimeoutExpired (cmd : list string) (timeout : Z)
| OSError (msg : string)
| ReadError (msg : string)
| HubError (msg : string).

Inductive result (A : Type) : Type :=
| Return (a : A)
| Raise (e : exn).

Arguments Return {A} a.
Arguments Raise {A} e.

Definition rbind {A B : Type} (r : result A) (k : A → result B) : result B :=
  match r with
  | Return a => k a
  | Raise e => Raise e
  end.

Notation "'let?' x ':=' r 'in' k" := (rbind r (fun x => k))
  (at level 10, x pattern, r at level 100, k at level 200, only parsing).

(** ** Python text operations *)

Module Str.

(** [s.startswith(p)] *)
Fixpoint startswith (s p : string) {struct p} : bool :=
  match p, s with
  | EmptyString, _ => true
  | String a p', String b s' => Ascii.eqb a b && startswith s' p'
  | String _ _, EmptyString => false
  end.

(** [c in s], for a single character [c] *)
Fixpoint contains (c : ascii) (s : string) : bool :=
  match s with
  | EmptyString => false
  | String a s' => Ascii.eqb a c || contains c s'
  end.

(** [s.find(c)], for a single character: the first index, [None] for -1 *)
Fixpoint find (c : ascii) (s : string) : option nat :=
  match s with
  | EmptyString => None
  | String a s' => if Ascii.eqb a c then Some 0%nat else S <$> find c s'
  end.

(** [s.find(c, start)] *)
Fixpoint find_from (c : ascii) (start : nat) (s : string) : option nat :=
  match start, s with
  | O, _ => find c s
  | S n, EmptyString => None
  | S n, String _ s' => S <$> find_from c n s'
  end.

(** [s.rfind(c)]: the last index *)
Fixpoint rfind (c : ascii) (s : string) : option nat :=
  match s with
  | EmptyString => None
  | String a s' =>
      match rfind c s' with
      | Some i => Some (S i)
      | None => if Ascii.eqb a c then Some 0%nat else None
      end
  end.

(** [s[:n]] and [s[n:]] for [n >= 0] *)
Fixpoint take (n : nat) (s : string) : string :=
  match n, s with
  | S n', String a s' => String a (take n' s')
  | _, _ => EmptyString
  end.

Fixpoint drop (n : nat) (s : string) : string :=
  match n, s with
  | S n', String _ s' => drop n' s'
  | _, _ => s
  end.

(** [s.replace(a, b)] for single characters *)
Fixpoint replace (a b : ascii) (s : string) : string :=
  match s with
  | EmptyString => EmptyString
  | String c s' => String (if Ascii.eqb c a then b else c) (replace a b s')
  end.

(** [s.replace(a, "")] for a single character *)
Fixpoint remove (a : ascii) (s : string) : string :=
  match s with
  | EmptyString => EmptyString
  | String c s' => if Ascii.eqb c a then remove a s' else String c (remove a s')
  end.

Fixpoint forallb (p : ascii → bool) (s : string) : bool :=
  match s with
  | EmptyString => true
  | String c s' => p c && forallb p s'
  end.

(** [s.split(c)] for a single-character separator: the first field and
    the list of the following ones; the result is never empty. *)
Fixpoint split1 (c : ascii) (s : string) : string * list string :=
  match s with
  | EmptyString => (EmptyString, [])
  | String a s' =>
      let '(w, ws) := split1 c s' in
      if Ascii.eqb a c then (EmptyString, w :: ws) else (String a w, ws)
  end.

Definition split (c : ascii) (s : string) : list string :=
  let '(w, ws) := split1 c s in w :: ws.

(** [s.split(c, 1)]: at most one cut, at the first occurrence *)
Fixpoint split_once (c : ascii) (s : string) : string * option string :=
  match s with
  | EmptyString => (EmptyString, None)
  | String a s' =>
      if Ascii.eqb a c then (EmptyString, Some s')
      else let '(w, r) := split_once c s' in (String a w, r)
  end.

(** [sep.join(l)] *)
Fixpoint join (sep : string) (l : list string) : string :=
  match l with
  | [] => ""
  | [x] => x
  | x :: l' => x +:+ sep +:+ join sep l'
  end.

(** [str.lower] on one code point below 256: the letters A-Z, and the
    upper-case letters of the Latin-1 supplement (U+00C0-U+00DE without
    the multiplication sign U+00D7), move up by 32. *)
Definition lower_char (c : ascii) : ascii :=
  let n := N_of_ascii c in
  if ((65 <=? n) && (n <=? 90)
      || (192 <=? n) && (n <=? 222) && negb (n =? 215))%N
  then ascii_of_N (n + 32) else c.

Fixpoint lower (s : string) : string :=
  match s with
  | EmptyString => EmptyString
  | String c s' => String (lower_char c) (lower s')
  end.

Definition is_empty (s : string) : bool :=
  match s with EmptyString => true | _ => false end.

End Str.

(** ** Python list indexing *)

Module PyList.

Definition index_error {A} : result A := Raise (IndexError "list index out of range").

(** [l[i]] for [i >= 0] *)
Definition get {A} (l : list A) (i : nat) : result A :=
  match l !! i with
  | Some x => Return x
  | None => index_error
  end.

(** [l[-k]] for [k >= 1] *)
Definition get_neg {A} (l : list A) (k : nat) : result A :=
  if (length l <? k)%nat then index_error
  else get l (length l - k)%nat.

(** [l[n:]] *)
Definition slice_from {A} (n : nat) (l : list A) : list A := drop n l.

End PyList.

(** ** [urllib.parse] (CPython 3.10), on the components the code reads *)

(** [unquote] returns its argument when it holds no ['%']; otherwise it
    decodes the escapes as UTF-8 with replacement, which can leave the range
    of code points of the model.  That second part is a parameter, known
    only to map a text that is not empty to one that is not empty. *)
Class Unquote := {
  unquote_escaped : string → string;
  (** every escape decodes to at least one character *)
  unquote_escaped_nonempty : ∀ s, s ≠ "" → unquote_escaped s ≠ ""
}.

Module Urllib.

Record ParseResult := {
  scheme : string;
  netloc : string;
  path : string;
  params : string;
  query : string;
  fragment : string
}.

(** [scheme_chars]: letters, digits and ["+-."] *)
Definition scheme_char (c : ascii) : bool :=
  let n := N_of_ascii c in
  ((97 <=? n) && (n <=? 122) || (65 <=? n) && (n <=? 90)
   || (48 <=? n) && (n <=? 57)
   || (n =? 43) || (n =? 45) || (n =? 46))%N.

Definition uses_params : list string :=
  [""; "ftp"; "hdl"; "prospero"; "http"; "imap"; "https"; "shttp"; "rtsp";
   "rtspu"; "sip"; "sips"; "mms"; "sftp"; "tel"].

(** [_UNSAFE_URL_BYTES_TO_REMOVE]: tab, carriage return, line feed *)
Definition remove_unsafe (url : string) : string :=
  Str.remove "010"%char (Str.remove "013"%char (Str.remove "009"%char url)).

(** [_splitnetloc(url, start)]: the earliest of the delimiters ['/'],
    ['?'], ['#'] found from [start] on ends the network location. *)
Definition splitnetloc (url : string) (start : nat) : string * string :=
  let delim :=
    foldl (fun delim c =>
             match Str.find_from c start url with
             | Some wdelim => Nat.min delim wdelim
             | None => delim
             end)
          (String.length url) ["/"; "?"; "#"]%char in
  (Str.drop start (Str.take delim url), Str.drop delim url).

(** [_splitparams(url)] *)
Definition splitparams (url : string) : string * string :=
  let cut i := (Str.take i url, Str.drop (S i) url) in
  match Str.rfind "/" url with
  | Some j =>
      match Str.find_from ";" j url with
      | Some i => cut i
      | None => (url, "")
      end
  | None =>
      match Str.find ";" url with
      | Some i => cut i
      | None => (Str.take (String.length url - 1) url, url)
      end
  end.

(** The steps of [urlsplit], in its order.  First the scheme: the text
    before the first [':'], when it is not empty and made of scheme
    characters. *)
Definition split_scheme (url : string) : string * string :=
  match Str.find ":" url with
  | Some (S i) =>
      if Str.forallb scheme_char (Str.take (S i) url)
      then (Str.lower (Str.take (S i) url), Str.drop (S (S i)) url)
      else ("", url)
  | _ => ("", url)
  end.

(** Then the network location, when the rest starts with ["//"]; brackets
    that do not match raise [ValueError]. *)
Definition split_netloc (url : string) : result (string * string) :=
  if String.eqb (Str.take 2 url) "//" then
    let '(netloc, url) := splitnetloc url 2 in
    if Str.contains "[" netloc && negb (Str.contains "]" netloc)
       || Str.contains "]" netloc && negb (Str.contains "[" netloc)
    then Raise (ValueError "Invalid IPv6 URL")
    else Return (netloc, url)
  else Return ("", url).

(** [url, rest = url.split(c, 1)] when [c in url] *)
Definition cut (c : ascii) (url : string) : string * string :=
  match Str.split_once c url with
  | (u, Some r) => (u, r)
  | (u, None) => (u, "")
  end.

(** [urlsplit(url)]: scheme, netloc, path, query, fragment.  The check
    [_checknetloc] does not raise on code points below 256 and is left
    out. *)
Definition urlsplit (url : string)
  : result (string * string * string * string * string) :=
  let url := remove_unsafe url in
  let '(scheme, url) := split_scheme url in
  let? (netloc, url) := split_netloc url in
  let '(url, fragment) := cut "#" url in
  let '(url, query) := cut "?" url in
  Return (scheme, netloc, url, query, fragment).

(** [urlparse(url)] *)
Definition urlparse (url : string) : result ParseResult :=
  let? (scheme, netloc, url, query, fragment) := urlsplit url in
  let '(url, params) :=
    if bool_decide (scheme ∈ uses_params) && Str.contains ";" url
    then splitparams url else (url, "") in
  Return {| scheme := scheme; netloc := netloc; path := url;
            params := params; query := query; fragment := fragment |}.

Section Query.
Context `{Unquote}.

(** [unquote(string)] *)
Definition unquote (s : string) : string :=
  if Str.contains "%" s then unquote_escaped s else s.

(** One turn of the loop of [parse_qsl] with its defaults: blank values
    are dropped, a field without ['='] is skipped, no strict parsing. *)
Definition parse_qsl_field (r : list (string * string)) (name_value : string)
  : list (string * string) :=
  if Str.is_empty name_value then r
  else
    match Str.split_once "=" name_value with
    | (_, None) => r
    | (n, Some v) =>
        if negb (Str.is_empty v) then
          let name := unquote (Str.replace "+" " " n) in
          let value := unquote (Str.replace "+" " " v) in
          r ++ [(name, value)]
        else r
    end.

(** [parse_qsl(qs)] *)
Definition parse_qsl (qs : string) : list (string * string) :=
  foldl parse_qsl_field [] (Str.split "&" qs).

(** One turn of the loop of [parse_qs] *)
Definition parse_qs_pair (parsed_result : gmap string (list string))
    (pair : string * string) : gmap string (list string) :=
  let '(name, value) := pair in
  match parsed_result !! name with
  | Some values => <[name := values ++ [value]]> parsed_result
  | None => <[name := [value]]> parsed_result
  end.

(** [parse_qs(qs)]: the dictionary from a name to its values, in order *)
Definition parse_qs (qs : string) : gmap string (list string) :=
  foldl parse_qs_pair ∅ (parse_qsl qs).

End Query.

End Urllib.

(** An instance of the parameter for concrete evaluations: the escapes that
    denote a code point below 128 are decoded, the others are kept. *)
Module AsciiUnquote.

Definition hex_digit (c : ascii) : option N :=
  let n := N_of_ascii c in
  if ((48 <=? n) && (n <=? 57))%N then Some (n - 48)%N
  else if ((97 <=? n) && (n <=? 102))%N then Some (n - 87)%N
  else if ((65 <=? n) && (n <=? 70))%N then Some (n - 55)%N
  else None.

Fixpoint decode (s : string) : string :=
  match s with
  | EmptyString => EmptyString
  | String c u =>
      if Ascii.eqb c "%" then
        match u with
        | String a (String b s') =>
            match hex_digit a, hex_digit b with
            | Some x, Some y =>
                if (16 * x + y <? 128)%N
                then String (ascii_of_N (16 * x + y)) (decode s')
                else String c (decode u)
            | _, _ => String c (decode u)
            end
        | _ => String c (decode u)
        end
      else String c (decode u)
  end.

Definition instance : Unquote :=
  {| unquote_escaped := decode;
     unquote_escaped_nonempty :=
       ltac:(intros [|c u]; [done|]; intros _; simpl; repeat case_match; done) |}.

End AsciiUnquote.

(** ** The world: file system, collaborators, and the monad of effects *)

(** A call that leaves the process: a subprocess or the HuggingFace client. *)
Inductive call : Type :=
| Subprocess (cmd : list string) (timeout : Z)
| HfHubDownload (repo_id revision filename local_dir : string).

(** The file system maps the path of a file to its bytes; directories are
    not recorded, so [os.makedirs(..., exist_ok=True)] changes nothing.
    [calls] logs, in order, every call that left the process. *)
Record world : Type := {
  fs : gmap string string;
  calls : list call
}.

Inductive proc_outcome : Type :=
| Exited (returncode : Z)
| TimedOut
| LaunchFailed (msg : string).

(** What [TarFile.extractfile] finds under a member name: a member with
    data (a regular file, or a link to one), or one without (a directory,
    a device). *)
Inductive tar_member : Type :=
| TarData (data : string)
| TarNoData.

(** The collaborators.  Each one reads and changes the file system as it
    pleases; nothing is assumed of them. *)
Record Externals : Type := {
  (** [subprocess.run(cmd, timeout=t)]: the file system it leaves, and how
      the process ended *)
  run_process : list string → Z → gmap string string
                → gmap string string * proc_outcome;
  (** [hf_hub_download(repo_id, revision, filename, local_dir)]: the file
      system it leaves, and the path of the downloaded file or its error *)
  hub_download : string → string → string → string → gmap string string
                 → gmap string string * result string;
  (** [tarfile.open]: the members of an archive given by its bytes, or the
      error of the reader *)
  tar_members : string → result (gmap string tar_member)
}.

Definition M (A : Type) : Type := world → world * result A.

Definition ret {A} (a : A) : M A := fun w => (w, Return a).
Definition raise {A} (e : exn) : M A := fun w => (w, Raise e).
Definition lift {A} (r : result A) : M A := fun w => (w, r).

Definition bind {A B} (m : M A) (k : A → M B) : M B :=
  fun w =>
    match m w with
    | (w', Return a) => k a w'
    | (w', Raise e) => (w', Raise e)
    end.

Notation "'let*' x ':=' m 'in' k" := (bind m (fun x => k))
  (at level 10, x pattern, m at level 100, k at level 200, only parsing).

(** [try: m except ...: h]: [handler e] is the body of the clause that
    catches [e], if there is one. *)
Definition try_except {A} (m : M A) (handler : exn → option (M A)) : M A :=
  fun w =>
    match m w with
    | (w', Return a) => (w', Return a)
    | (w', Raise e) =>
        match handler e with
        | Some h => h w'
        | None => (w', Raise e)
        end
    end.

Module Os.

(** [os.path.join(a, b)] *)
Definition path_join (a b : string) : string :=
  if Str.startswith b "/" then b
  else if Str.is_empty a || Str.startswith (Str.drop (String.length a - 1) a) "/"
       then a +:+ b
       else a +:+ "/" +:+ b.

(** [os.path.exists(p)] *)
Definition path_exists (p : string) : M bool :=
  fun w => (w, Return (bool_decide (is_Some (fs w !! p)))).

(** [os.makedirs(p, exist_ok=True)] *)
Definition makedirs (p : string) : M unit := ret ().

(** [shutil.move(src, dst)] *)
Definition move (src dst : string) : M unit :=
  fun w =>
    match fs w !! src with
    | Some data =>
        ({| fs := <[dst := data]> (delete src (fs w)); calls := calls w |},
         Return ())
    | None => (w, Raise (OSError "No such file or directory"))
    end.

(** [with open(p, "wb") as f: f.write(data)] *)
Definition write_file (p data : string) : M unit :=
  fun w => ({| fs := <[p := data]> (fs w); calls := calls w |}, Return ()).

(** [os.unlink(p)] *)
Definition unlink (p : string) : M unit :=
  fun w =>
    match fs w !! p with
    | Some _ => ({| fs := delete p (fs w); calls := calls w |}, Return ())
    | None => (w, Raise (OSError "No such file or directory"))
    end.

End Os.

Section Collaborators.
Variable E : Externals.

(** [subprocess.run(cmd, timeout=t)]: the return code, or [TimeoutExpired] *)
Definition subprocess_run (cmd : list string) (timeout : Z) : M Z :=
  fun w =>
    let '(fs', outcome) := run_process E cmd timeout (fs w) in
    let w' := {| fs := fs'; calls := calls w ++ [Subprocess cmd timeout] |} in
    match outcome with
    | Exited returncode => (w', Return returncode)
    | TimedOut => (w', Raise (TimeoutExpired cmd timeout))
    | LaunchFailed msg => (w', Raise (OSError msg))
    end.

(** [hf_hub_download(repo_id=, revision=, filename=, local_dir=)] *)
Definition hf_hub_download (repo_id revision filename local_dir : string)
  : M string :=
  fun w =>
    let '(fs', r) := hub_download E repo_id revision filename local_dir (fs w) in
    ({| fs := fs';
        calls := calls w ++ [HfHubDownload repo_id revision filename local_dir] |},
     r).

(** [tarfile.open(p, "r")] *)
Definition tarfile_open (p : string) : M (gmap string tar_member) :=
  fun w =>
    match fs w !! p with
    | Some bytes => (w, tar_members E bytes)
    | None => (w, Raise (OSError "No such file or directory"))
    end.

End Collaborators.

(** [tar.extractfile(name)]: a member that is not in the archive raises
    [KeyError]; a member without data yields [None]. *)
Definition extractfile (tar : gmap string tar_member) (name : string)
  : result (option string) :=
  match tar !! name with
  | None => Raise (KeyError ("filename '" +:+ name +:+ "' not found"))
  | Some (TarData data) => Return (Some data)
  | Some TarNoData => Return None
  end.

(** ** [download_external_lora.py] *)

Definition HF_TEMP_DIR : string := "TEMP_HF".
Definition COMFYUI_LORA_DIR : string := "ComfyUI/models/loras".

Module DownloadExternalLora.
Import Urllib.

Section Methods.
Context `{Unquote}.
Variable E : Externals.

(** [get_replicate_filename(url)] *)
Definition get_replicate_filename (url : string) : result string :=
  let? unique_id := PyList.get_neg (Str.split "/" url) 2 in
  Return ("replicate_lora_" +:+ unique_id +:+ ".safetensors").

(** One turn of the loop of [get_civitai_filename] over the parameter
    names: [if value := query_params.get(param, [""])[0]: ...] *)
Definition civitai_param_step (query_params : gmap string (list string))
    (filename_parts : list string) (param : string) : result (list string) :=
  let? value := PyList.get (default [""] (query_params !! param)) 0 in
  if negb (Str.is_empty value)
  then Return (filename_parts ++ [Str.lower value])
  else Return filename_parts.

Fixpoint for_each {A B} (body : A → B → result A) (l : list B) (a : A)
  : result A :=
  match l with
  | [] => Return a
  | x :: l' => let? a' := body a x in for_each body l' a'
  end.

(** [get_civitai_filename(url)] *)
Definition get_civitai_filename (url : string) : result string :=
  let? parsed_url := urlparse url in
  let query_params := parse_qs (query parsed_url) in
  let? model_id := PyList.get_neg (Str.split "/" (path parsed_url)) 1 in
  let? filename_parts :=
    for_each (civitai_param_step query_params)
             ["type"; "format"; "size"; "fp"]
             ["civitai_" +:+ model_id] in
  Return (Str.join "_" filename_parts +:+ ".safetensors").

(** [extract_parts_from_huggingface_url(url)] *)
Definition extract_parts_from_huggingface_url (url : string)
  : result (string * string * list string * string) :=
  let? parsed_url := urlparse url in
  let path_parts := Str.split "/" (path parsed_url) in
  if (length path_parts <? 5)%nat then
    Raise (ValueError
             ("HuggingFace URL does not contain enough parts: " +:+ url))
  else
    let? part1 := PyList.get path_parts 1 in
    let? part2 := PyList.get path_parts 2 in
    let repo_id := part1 +:+ "/" +:+ part2 in
    let? revision := PyList.get path_parts 4 in
    let filename_and_path := PyList.slice_from 5 path_parts in
    let? filename := PyList.get_neg filename_and_path 1 in
    Return (repo_id, revision, filename_and_path, filename).

(** The local name of a HuggingFace file (line 38):
    [f"{repo_id.replace('/', '_')}_{original_filename}"] *)
Definition huggingface_filename (repo_id original_filename : string) : string :=
  Str.replace "/" "_" repo_id +:+ "_" +:+ original_filename.

(** [download_from_huggingface(url)] *)
Definition download_from_huggingface (url : string) : M string :=
  let* (repo_id, revision, filename_and_path, original_filename) :=
    lift (extract_parts_from_huggingface_url url) in
  let filename := huggingface_filename repo_id original_filename in
  let dest_path := Os.path_join COMFYUI_LORA_DIR filename in
  let* found := Os.path_exists dest_path in
  if found then ret filename
  else
    let* file_path :=
      hf_hub_download E repo_id revision (Str.join "/" filename_and_path)
                      HF_TEMP_DIR in
    let* _ := Os.makedirs COMFYUI_LORA_DIR in
    let* _ := Os.move file_path dest_path in
    ret filename.

(** [download_from_civitai(url)] *)
Definition download_from_civitai (url : string) : M string :=
  let* filename := lift (get_civitai_filename url) in
  let dest_path := Os.path_join COMFYUI_LORA_DIR filename in
  let* found := Os.path_exists dest_path in
  if found then ret filename
  else
    let* _ :=
      try_except
        (let* returncode :=
           subprocess_run E ["pget"; "-f"; url; dest_path] 600 in
         if negb (returncode =? 0) then raise (RuntimeError "Download failed.")
         else ret ())
        (fun e =>
           match e with
           | TimeoutExpired _ _ =>
               Some (raise (RuntimeError "Download failed due to timeout"))
           | _ => None
           end) in
    ret filename.

(** [download_from_replicate(url)] *)
Definition download_from_replicate (url : string) : M string :=
  let* filename := lift (get_replicate_filename url) in
  let dest_path := Os.path_join COMFYUI_LORA_DIR filename in
  let temp_tar_path := Os.path_join HF_TEMP_DIR filename in
  let* found := Os.path_exists dest_path in
  if found then ret filename
  else
    let* _ := subprocess_run E ["pget"; "-f"; url; temp_tar_path] 600 in
    let* tar := tarfile_open E temp_tar_path in
    let* lora_file :=
      lift (extractfile tar "output/flux_train_replicate/lora.safetensors") in
    match lora_file with
    | None => raise (ValueError "LoRA file not found in the downloaded tar")
    | Some data =>
        let* _ := Os.makedirs COMFYUI_LORA_DIR in
        let* _ := Os.write_file dest_path data in
        let* _ := Os.unlink temp_tar_path in
        ret filename
    end.

(** [download(url)] *)
Definition download (url : string) : M string :=
  if Str.startswith url "https://huggingface.co" then
    download_from_huggingface url
  else if Str.startswith url "https://civitai.com" then
    download_from_civitai url
  else if Str.startswith url "https://replicate.delivery" then
    download_from_replicate url
  else
    raise (ValueError
      "URL must be from 'huggingface.co', 'civitai.com', or 'replicate.delivery'").

End Methods.

End DownloadExternalLora.

(** ** [predict.py] *)

(** A JSON document as [json.loads] returns it: a tree, no object of which
    is shared.  A Python [float] is a binary64 number. *)
#[local] Set Warnings "-register-all".
Inductive json : Type :=
| JNull
| JBool (b : bool)
| JInt (z : Z)
| JFloat (x : float)
| JStr (s : string)
| JArr (l : list json)
| JObj (m : gmap string json).
#[local] Set Warnings "register-all".

Module Predictor.

(** [d[k]] on a value of the document, for a string key *)
Definition getitem (d : json) (k : string) : result json :=
  match d with
  | JObj m =>
      match m !! k with
      | Some v => Return v
      | None => Raise (KeyError k)
      end
  | _ => Raise (TypeError "object is not subscriptable by a string")
  end.

(** [d[k] = v] on a value of the document *)
Definition setitem (d : json) (k : string) (v : json) : result json :=
  match d with
  | JObj m => Return (JObj (<[k := v]> m))
  | _ => Raise (TypeError "object does not support item assignment")
  end.

(** The keyword arguments of [update_workflow], as [predict] passes them *)
Record kwargs : Type := {
  prompt : string;
  negative_prompt : string;
  control_type : string;
  control_image_filename : option string;
  control_strength : float;
  guidance_scale : float;
  steps : Z;
  soft_edge_preprocessor : string;
  depth_preprocessor : string;
  image_to_image_strength : float;
  return_preprocessed_image : bool;
  seed : Z
}.

(** A lookup in a dictionary literal of strings *)
Definition dict_lookup (d : list (string * string)) (k : string) : result string :=
  match (list_to_map d : gmap string string) !! k with
  | Some v => Return v
  | None => Raise (KeyError k)
  end.

(** [preprocessor_map(preprocessor_label)] *)
Definition preprocessor_map (preprocessor_label : string) : result string :=
  dict_lookup
    [("Canny", "CannyEdgePreprocessor");
     ("Midas", "MiDaS-DepthMapPreprocessor");
     ("Zoe", "Zoe-DepthMapPreprocessor");
     ("DepthAnything", "DepthAnythingPreprocessor");
     ("Zoe-DepthAnything", "Zoe_DepthAnythingPreprocessor");
     ("HED", "HEDPreprocessor");
     ("TEED", "TEEDPreprocessor");
     ("PiDiNet", "PiDiNetPreprocessor")]
    preprocessor_label.

(** [control_weights_map(control_type)] *)
Definition control_weights_map (control_type : string) : result string :=
  dict_lookup
    [("canny", "flux-canny-controlnet-v3.safetensors");
     ("soft_edge", "flux-hed-controlnet-v3.safetensors");
     ("depth", "flux-depth-controlnet-v3.safetensors")]
    control_type.

(** The code takes a reference [r = workflow[node]["inputs"]] and then
    assigns [r[key] = value], which changes the document in place.  The
    document is a tree, so the reference is the node identifier, and
    the assignment is the update of the document along that path. *)
Definition inputs_of (workflow : json) (node : string) : result string :=
  let? n := getitem workflow node in
  let? _ := getitem n "inputs" in
  Return node.

Definition assign (workflow : json) (ref key : string) (value : json)
  : result json :=
  let? n := getitem workflow ref in
  let? inputs := getitem n "inputs" in
  let? inputs' := setitem inputs key value in
  let? n' := setitem n "inputs" inputs' in
  setitem workflow ref n'.

Definition json_of_option (o : option string) : json :=
  match o with
  | Some s => JStr s
  | None => JNull
  end.

(** [update_workflow(workflow, **kwargs)]: the document after the call *)
Definition update_workflow (workflow : json) (kw : kwargs) : result json :=
  let? positive_prompt := inputs_of workflow "53" in
  let? workflow := assign workflow positive_prompt "clip_l" (JStr (prompt kw)) in
  let? workflow := assign workflow positive_prompt "t5xxl" (JStr (prompt kw)) in
  let? workflow :=
    assign workflow positive_prompt "guidance" (JFloat (guidance_scale kw)) in

  let? negative_prompt_ref := inputs_of workflow "57" in
  let? workflow :=
    assign workflow negative_prompt_ref "clip_l"
           (JStr ("nsfw, " +:+ negative_prompt kw)) in
  let? workflow :=
    assign workflow negative_prompt_ref "t5xxl"
           (JStr ("nsfw, " +:+ negative_prompt kw)) in
  let? workflow :=
    assign workflow negative_prompt_ref "guidance" (JFloat (guidance_scale kw)) in

  let? control_image := inputs_of workflow "16" in
  let? workflow :=
    assign workflow control_image "image"
           (json_of_option (control_image_filename kw)) in

  let? control_strength_ref := inputs_of workflow "14" in
  let? workflow :=
    assign workflow control_strength_ref "strength"
           (JFloat (control_strength kw)) in

  let? sampler := inputs_of workflow "3" in
  let? workflow := assign workflow sampler "steps" (JInt (steps kw)) in
  let? workflow := assign workflow sampler "noise_seed" (JInt (seed kw)) in
  let? workflow := assign workflow sampler "seed" (JInt (seed kw)) in
  let? workflow := assign workflow sampler "true_gs" (JFloat (guidance_scale kw)) in
  let? workflow :=
    assign workflow sampler "image_to_image_strength"
           (JFloat (image_to_image_strength kw)) in

  let? control_weights := inputs_of workflow "13" in
  let? weights := control_weights_map (control_type kw) in
  let? workflow :=
    assign workflow control_weights "controlnet_path" (JStr weights) in

  let preprop :=
    if String.eqb (control_type kw) "depth" then depth_preprocessor kw
    else if String.eqb (control_type kw) "soft_edge" then soft_edge_preprocessor kw
    else "Canny" in

  let? preprocessor := inputs_of workflow "51" in
  let? label := preprocessor_map preprop in
  assign workflow preprocessor "preprocessor" (JStr label).

(** The arguments of [predict] that reach the workflow, with the results
    of the steps that precede [update_workflow]: the seed returned by
    [seed_helper.generate] and the name under which the control image was
    stored. *)
Record predict_args : Type := {
  arg_prompt : string;
  arg_negative_prompt : string;
  arg_guidance_scale : float;
  arg_steps : Z;
  arg_control_type : string;
  arg_control_strength : float;
  arg_image_to_image_strength : float;
  arg_depth_preprocessor : string;
  arg_soft_edge_preprocessor : string;
  arg_return_preprocessed_image : bool
}.

(** The call of [update_workflow] in [predict] (lines 178-192): the
    document that is then handed to [load_workflow] and [run_workflow]. *)
Definition predict_workflow (workflow : json) (a : predict_args)
    (generated_seed : Z) (control_image_filename : option string)
  : result json :=
  update_workflow workflow
    {| prompt := arg_prompt a;
       negative_prompt := arg_negative_prompt a;
       control_type := arg_control_type a;
       control_image_filename := control_image_filename;
       control_strength := arg_control_strength a;
       guidance_scale := arg_guidance_scale a;
       steps := arg_steps a;
       soft_edge_preprocessor := arg_soft_edge_preprocessor a;
       depth_preprocessor := arg_depth_preprocessor a;
       image_to_image_strength := arg_image_to_image_strength a;
       return_preprocessed_image := arg_return_preprocessed_image a;
       seed := generated_seed |}.

(** Reading a field of a node of the document: [workflow[node]["inputs"][key]] *)
Definition input_field (workflow : json) (node key : string) : result json :=
  let? n := getitem workflow node in
  let? inputs := getitem n "inputs" in
  getitem inputs key.

(** [os.path.splitext(p)] (posixpath): the extension starts at the last
    ['.'] that stands after the last ['/'], unless only dots stand between
    that ['/'] and it.  [other_than_dot n s] is the loop that skips the
    leading dots: whether one of the first [n] characters of [s] is not a
    dot. *)
Fixpoint other_than_dot (n : nat) (s : string) : bool :=
  match n, s with
  | S n', String c s' => if Ascii.eqb c "." then other_than_dot n' s' else true
  | _, _ => false
  end.

Definition splitext (p : string) : string * string :=
  match Str.rfind "." p with
  | Some dotIndex =>
      let filenameIndex :=
        match Str.rfind "/" p with
        | Some sepIndex => S sepIndex
        | None => 0%nat
        end in
      if (filenameIndex <=? dotIndex)%nat
         && other_than_dot (dotIndex - filenameIndex) (Str.drop filenameIndex p)
      then (Str.take dotIndex p, Str.drop dotIndex p)
      else (p, "")
  | None => (p, "")
  end.

(** [filename_with_extension(input_file, prefix)], on [input_file.name] *)
Definition filename_with_extension (name prefix : string) : string :=
  let extension := (splitext name).2 in
  prefix +:+ extension.

(** The name under which [predict] stores the control image (lines
    168-173), from the name of the uploaded file; [None] when the request
    has no control image. *)
Definition stored_control_image (control_image : option string) : option string :=
  match control_image with
  | Some name => Some (filename_with_extension name "control_image")
  | None => None
  end.

(** The directories [predict] collects its files from (lines 198-200). *)
Definition output_directories (return_preprocessed_image : bool) : list string :=
  ["/tmp/outputs"] ++ (if return_preprocessed_image then ["ComfyUI/temp"] else []).

End Predictor.

(** ** The vocabulary of the specification *)

(** The error kinds of the specification, as the exceptions the source
    raises for them. *)
Definition UnsupportedSource : exn :=
  ValueError "URL must be from 'huggingface.co', 'civitai.com', or 'replicate.delivery'".
Definition MalformedUrl (url : string) : exn :=
  ValueError ("HuggingFace URL does not contain enough parts: " +:+ url).
Definition DownloadFailed : exn := RuntimeError "Download failed.".
Definition DownloadTimeout : exn := RuntimeError "Download failed due to timeout".
Definition ArchiveEntryMissing : exn :=
  ValueError "LoRA file not found in the downloaded tar".

(** The three provider prefixes, in the order of the dispatch. *)
Definition provider_prefixes : list string :=
  ["https://huggingface.co"; "https://civitai.com"; "https://replicate.delivery"].

(** The local file name derived from a URL: what each provider path
    computes before it looks at the file system (lines 30-38, 59, 84). *)
Definition derived_filename `{Unquote} (url : string) : result string :=
  if Str.startswith url "https://huggingface.co" then
    let? (repo_id, _, _, original_filename) :=
      DownloadExternalLora.extract_parts_from_huggingface_url url in
    Return (DownloadExternalLora.huggingface_filename repo_id original_filename)
  else if Str.startswith url "https://civitai.com" then
    DownloadExternalLora.get_civitai_filename url
  else if Str.startswith url "https://replicate.delivery" then
    DownloadExternalLora.get_replicate_filename url
  else Raise UnsupportedSource.

(** The destination of a local file name. *)
Definition dest_path (filename : string) : string :=
  Os.path_join COMFYUI_LORA_DIR filename.

(** The segments of a URL path (RFC 3986): the components that follow each
    ['/'] of the path.  [path.split("/")] lists, before them, the text in
    front of the first ['/'], which is empty for the path of a URL that
    names a host.  Segments are counted from 1. *)
Definition path_segments (path : string) : list string :=
  tail (Str.split "/" path).

Definition segment (k : nat) (segments : list string) : option string :=
  segments !! (k - 1)%nat.

(** The path segments of a URL, when [urlparse] accepts it. *)
Definition url_path_segments (url : string) : result (list string) :=
  let? parsed_url := Urllib.urlparse url in
  Return (path_segments (Urllib.path parsed_url)).

(** Following the specification: the part of a Civitai file name that one
    query parameter contributes, ['_'] and the lower-cased value when the
    parameter is present in the parsed query (its first value, when it is
    repeated), nothing otherwise. *)
Definition civitai_suffix (query_params : gmap string (list string))
    (param : string) : string :=
  match query_params !! param with
  | Some (value :: _) => "_" +:+ Str.lower value
  | _ => ""
  end.

(** Following the specification: [civitai_{model_id}], the parts of [type],
    [format], [size], [fp] in that order, and [.safetensors]. *)
Definition civitai_filename_spec (model_id : string)
    (query_params : gmap string (list string)) : string :=
  "civitai_" +:+ model_id
  +:+ civitai_suffix query_params "type"
  +:+ civitai_suffix query_params "format"
  +:+ civitai_suffix query_params "size"
  +:+ civitai_suffix query_params "fp"
  +:+ ".safetensors".

(** The fields one parameter adds to [filename_parts]. *)
Definition civitai_fields (query_params : gmap string (list string))
    (param : string) : list string :=
  match query_params !! param with
  | Some (value :: _) => [Str.lower value]
  | _ => []
  end.

(** A dictionary of the values of a query: every name has at least one
    value, and no value is empty. *)
Definition values_present (m : gmap string (list string)) : Prop :=
  ∀ name values, m !! name = Some values →
                 ∃ value rest, values = value :: rest ∧ value ≠ "".

(** The last path segment, empty when the path has none. *)
Definition last_segment (path : string) : string :=
  default "" (last (path_segments path)).

(** A path that is empty or starts with ['/']: the path of a URL that
    names a host. *)
Definition rooted (path : string) : Prop :=
  path = "" ∨ Str.startswith path "/" = true.

(** The characters that end the path of a URL or that [urlsplit] removes:
    ['?'], ['#'], [';'], tab, carriage return, line feed. *)
Definition path_breakers : list ascii :=
  ["?"; "#"; ";"; "009"; "013"; "010"]%char.

(** A URL that is its scheme, host and path, and nothing else. *)
Definition plain_url (url : string) : Prop :=
  Forall (λ c, Str.contains c url = false) path_breakers.

(** ** Collaborators and worlds of the examples *)

(** A fast-fetch that writes [data] at its destination, the last argument
    of the command, and ends as [outcome]. *)
Definition fetch_writing (data : string) (outcome : proc_outcome)
  : list string → Z → gmap string string → gmap string string * proc_outcome :=
  λ cmd _ files,
    (match last cmd with
     | Some dest => <[dest := data]> files
     | None => files
     end, outcome).

(** A fast-fetch that writes nothing and ends as [outcome]. *)
Definition fetch_nothing (outcome : proc_outcome)
  : list string → Z → gmap string string → gmap string string * proc_outcome :=
  λ _ _ files, (files, outcome).

(** A client that is off line. *)
Definition hub_offline
  : string → string → string → string → gmap string string
    → gmap string string * result string :=
  λ _ _ _ _ files, (files, Raise (HubError "offline")).

Definition lora_entry : string := "output/flux_train_replicate/lora.safetensors".

(** A tar reader that knows three archives: one that holds the LoRA entry
    as a file, one that holds it as a directory, and one with no member. *)
Definition toy_tar (bytes : string) : result (gmap string tar_member) :=
  if String.eqb bytes "tar with lora" then
    Return {[ lora_entry := TarData "weights" ]}
  else if String.eqb bytes "tar with lora directory" then
    Return {[ lora_entry := TarNoData ]}
  else if String.eqb bytes "tar without lora" then Return ∅
  else Raise (ReadError "file could not be opened successfully").

Definition toy_externals
    (fetch : list string → Z → gmap string string
             → gmap string string * proc_outcome) : Externals :=
  {| run_process := fetch; hub_download := hub_offline; tar_members := toy_tar |}.

Definition empty_world : world := {| fs := ∅; calls := [] |}.

(** ** Well-formed workflow documents and valid requests *)

(** The node [node] of the document has a dictionary under ["inputs"]. *)
Definition has_inputs (workflow : json) (node : string) : Prop :=
  ∃ m n i, workflow = JObj m ∧ m !! node = Some (JObj n)
           ∧ n !! "inputs" = Some (JObj i).

(** The nodes [update_workflow] writes to. *)
Definition workflow_nodes : list string :=
  ["53"; "57"; "16"; "14"; "3"; "13"; "51"].

(** The choices [predict] declares for its inputs. *)
Definition valid_choices (a : Predictor.predict_args) : Prop :=
  Predictor.arg_control_type a ∈ ["canny"; "soft_edge"; "depth"]
  ∧ Predictor.arg_depth_preprocessor a
    ∈ ["Midas"; "Zoe"; "DepthAnything"; "Zoe-DepthAnything"]
  ∧ Predictor.arg_soft_edge_preprocessor a ∈ ["HED"; "TEED"; "PiDiNet"].

(** A workflow document with the seven nodes, each with empty inputs but
    the negative prompt, which holds values to be overwritten. *)
Definition sample_node (inputs : gmap string json) : json :=
  JObj {[ "inputs" := JObj inputs; "class_type" := JStr "Node" ]}.

Definition sample_workflow : json :=
  JObj (list_to_map
          [("53", sample_node ∅);
           ("57", sample_node {[ "clip_l" := JStr "old"; "guidance" := JInt 1 ]});
           ("16", sample_node ∅); ("14", sample_node ∅); ("3", sample_node ∅);
           ("13", sample_node ∅); ("51", sample_node ∅)]).

Definition sample_args : Predictor.predict_args :=
  {| Predictor.arg_prompt := "a castle";
     Predictor.arg_negative_prompt := "blurry";
     Predictor.arg_guidance_scale := 3.5%float;
     Predictor.arg_steps := 28;
     Predictor.arg_control_type := "depth";
     Predictor.arg_control_strength := 0.5%float;
     Predictor.arg_image_to_image_strength := 0%float;
     Predictor.arg_depth_preprocessor := "DepthAnything";
     Predictor.arg_soft_edge_preprocessor := "HED";
     Predictor.arg_return_preprocessed_image := false |}.

(** The scratch path of a Replicate archive. *)
Definition scratch_path (filename : string) : string :=
  Os.path_join HF_TEMP_DIR filename.

(** The fields of the inputs that [update_workflow] assigns, as pairs of
    a node and a key, in the order of the assignments. *)
Definition written_fields : list (string * string) :=
  [("53", "clip_l"); ("53", "t5xxl"); ("53", "guidance");
   ("57", "clip_l"); ("57", "t5xxl"); ("57", "guidance");
   ("16", "image"); ("14", "strength");
   ("3", "steps"); ("3", "noise_seed"); ("3", "seed"); ("3", "true_gs");
   ("3", "image_to_image_strength");
   ("13", "controlnet_path"); ("51", "preprocessor")].

(** The label that [update_workflow] looks up in [preprocessor_map]
    (lines 95-100). *)
Definition selected_preprocessor (a : Predictor.predict_args) : string :=
  if String.eqb (Predictor.arg_control_type a) "depth"
  then Predictor.arg_depth_preprocessor a
  else if String.eqb (Predictor.arg_control_type a) "soft_edge"
       then Predictor.arg_soft_edge_preprocessor a
       else "Canny".

(** The labels [preprocessor_map] knows. *)
Definition preprocessor_labels : list string :=
  ["Canny"; "Midas"; "Zoe"; "DepthAnything"; "Zoe-DepthAnything"; "HED"; "TEED";
   "PiDiNet"].

(** Reading a key of a node of the document: [workflow[node][key]] *)
Definition node_key (workflow : json) (node key : string) : result json :=
  let? n := Predictor.getitem workflow node in
  Predictor.getitem n key.

(** A client that serves [data]: it writes the file under the staging
    directory and returns its path. *)
Definition hub_serving (data : string)
  : string → string → string → string → gmap string string
    → gmap string string * result string :=
  λ _ _ filename local_dir files,
    (<[local_dir +:+ "/" +:+ filename := data]> files,
     Return (local_dir +:+ "/" +:+ filename)).

Definition serving_externals (data : string) : Externals :=
  {| run_process := fetch_nothing TimedOut;
     hub_download := hub_serving data;
     tar_members := toy_tar |}.

(** The document that [predict] hands on for the sample request. *)
Definition sample_result : json :=
  match Predictor.predict_workflow sample_workflow sample_args 42
          (Some "control_image.png") with
  | Return workflow' => workflow'
  | Raise _ => JNull
  end.

(** * Properties *)

(** ** Text lemmas *)

Lemma append_String (a : ascii) (s t : string) :
  String a s +:+ t = String a (s +:+ t).
Proof. reflexivity. Qed.

Lemma append_empty_l (t : string) : "" +:+ t = t.
Proof. reflexivity. Qed.

Lemma append_empty_r (s : string) : s +:+ "" = s.
Proof. induction s as [|a s IH]; [done|]. by rewrite append_String, IH. Qed.

Lemma append_assoc (s t u : string) : (s +:+ t) +:+ u = s +:+ t +:+ u.
Proof.
  induction s as [|a s IH]; [done|]. by rewrite !append_String, IH.
Qed.

Lemma startswith_app (p t : string) : Str.startswith (p +:+ t) p = true.
Proof.
  induction p as [|a p IH]; [done|].
  rewrite append_String. simpl. by rewrite Ascii.eqb_refl, IH.
Qed.

Lemma startswith_inv (s p : string) :
  Str.startswith s p = true → ∃ t, s = p +:+ t.
Proof.
  revert s. induction p as [|a p IH]; intros s Hs.
  - by exists s.
  - destruct s as [|b s]; [done|]. simpl in Hs.
    apply andb_true_iff in Hs as [Hab Hs].
    apply Ascii.eqb_eq in Hab as ->.
    destruct (IH _ Hs) as [t ->]. by exists t.
Qed.

(** ** Dispatch *)

Section Dispatch.
Context `{Unquote}.
Import DownloadExternalLora.

Lemma prefixes_exclusive (url : string) :
  (length (filter (λ p, Str.startswith url p = true) provider_prefixes) ≤ 1)%nat.
Proof.
  unfold provider_prefixes. rewrite !filter_cons, filter_nil.
  repeat case_decide; simpl; try lia;
    repeat match goal with
           | Hp : Str.startswith _ _ = true |- _ =>
               apply startswith_inv in Hp as [? Hp]
           end;
    subst; discriminate.
Qed.

(** C1. [download] tests the three provider prefixes in the order
    huggingface.co, civitai.com, replicate.delivery.  No URL has two of
    them, so a URL with one of the prefixes runs exactly the path of that
    provider; a URL with none of them raises [UnsupportedSource] and
    leaves the world as it was: no file is touched and no call leaves the
    process. *)
Theorem download_dispatch (E : Externals) (url : string) (w : world) :
  (length (filter (λ p, Str.startswith url p = true) provider_prefixes) ≤ 1)%nat
  ∧ (Str.startswith url "https://huggingface.co" = true →
     download E url w = download_from_huggingface E url w)
  ∧ (Str.startswith url "https://civitai.com" = true →
     download E url w = download_from_civitai E url w)
  ∧ (Str.startswith url "https://replicate.delivery" = true →
     download E url w = download_from_replicate E url w)
  ∧ (Forall (λ p, Str.startswith url p = false) provider_prefixes →
     download E url w = (w, Raise UnsupportedSource)).
Proof.
  pose proof (prefixes_exclusive url) as Hex.
  split; [exact Hex|].
  unfold provider_prefixes in Hex.
  rewrite !filter_cons, filter_nil in Hex.
  unfold download.
  repeat split.
  - by intros ->.
  - intros Hc. rewrite Hc in *.
    destruct (Str.startswith url "https://huggingface.co") eqn:Hh; [|done].
    repeat case_decide; simpl in Hex; try lia; congruence.
  - intros Hr. rewrite Hr in *.
    destruct (Str.startswith url "https://huggingface.co") eqn:Hh;
      destruct (Str.startswith url "https://civitai.com") eqn:Hc; try done;
      repeat case_decide; simpl in Hex; try lia; congruence.
  - intros Hn. unfold provider_prefixes in Hn.
    repeat (apply Forall_cons in Hn as [? Hn]).
    repeat match goal with
           | Hp : Str.startswith _ _ = false |- _ => rewrite Hp; clear Hp
           end.
    reflexivity.
Qed.

End Dispatch.

(** ** File name derivation and the cache-hit short circuit *)

(** Unfolds the monad of effects and splits on every test it meets. *)
Ltac run_monad :=
  unfold bind, lift, ret, raise, try_except, Os.path_exists, Os.makedirs,
    Os.move, Os.write_file, Os.unlink, subprocess_run, hf_hub_download,
    tarfile_open in *.

Section Cache.
Context `{Unquote}.
Import DownloadExternalLora.

Lemma huggingface_returns E url w w' f :
  download_from_huggingface E url w = (w', Return f) →
  ∃ repo_id revision filename_and_path original_filename,
    extract_parts_from_huggingface_url url
      = Return (repo_id, revision, filename_and_path, original_filename)
    ∧ f = huggingface_filename repo_id original_filename.
Proof.
  unfold download_from_huggingface. run_monad.
  destruct (extract_parts_from_huggingface_url url)
    as [[[[repo_id revision] fp] orig]|e]; [|done].
  intros Hd. exists repo_id, revision, fp, orig. split; [done|].
  repeat case_match; by simplify_eq.
Qed.

Lemma civitai_returns E url w w' f :
  download_from_civitai E url w = (w', Return f) →
  get_civitai_filename url = Return f.
Proof.
  unfold download_from_civitai. run_monad.
  destruct (get_civitai_filename url) as [filename|e]; [|done].
  intros Hd. repeat case_match; by simplify_eq.
Qed.

Lemma replicate_returns E url w w' f :
  download_from_replicate E url w = (w', Return f) →
  get_replicate_filename url = Return f.
Proof.
  unfold download_from_replicate. run_monad.
  destruct (get_replicate_filename url) as [filename|e]; [|done].
  intros Hd. repeat case_match; by simplify_eq.
Qed.

Lemma download_returns E url w w' f :
  download E url w = (w', Return f) → derived_filename url = Return f.
Proof.
  unfold download, derived_filename.
  repeat case_match; intros Hd.
  - apply huggingface_returns in Hd as (r & v & fp & o & -> & ->). done.
  - by apply civitai_returns in Hd.
  - by apply replicate_returns in Hd.
  - done.
Qed.

Lemma huggingface_cache_hit E url w repo_id revision fp orig :
  extract_parts_from_huggingface_url url = Return (repo_id, revision, fp, orig) →
  is_Some (fs w !! dest_path (huggingface_filename repo_id orig)) →
  download_from_huggingface E url w
    = (w, Return (huggingface_filename repo_id orig)).
Proof.
  intros Hx Hf. unfold download_from_huggingface. run_monad.
  rewrite Hx. fold (dest_path (huggingface_filename repo_id orig)).
  by rewrite bool_decide_eq_true_2.
Qed.

Lemma civitai_cache_hit E url w f :
  get_civitai_filename url = Return f →
  is_Some (fs w !! dest_path f) →
  download_from_civitai E url w = (w, Return f).
Proof.
  intros Hx Hf. unfold download_from_civitai. run_monad.
  rewrite Hx. fold (dest_path f). by rewrite bool_decide_eq_true_2.
Qed.

Lemma replicate_cache_hit E url w f :
  get_replicate_filename url = Return f →
  is_Some (fs w !! dest_path f) →
  download_from_replicate E url w = (w, Return f).
Proof.
  intros Hx Hf. unfold download_from_replicate. run_monad.
  rewrite Hx. fold (dest_path f). by rewrite bool_decide_eq_true_2.
Qed.

(** C2. The local file name is a function of the URL alone: whatever the
    collaborators do and whatever the file system holds, a call of
    [download] that returns, returns [derived_filename url], so two calls
    on one URL return the same name.  When a file of that name is already
    at the destination, [download] and each of the three provider paths
    return the name and leave the world as it was: the file system is
    unchanged and no call has left the process (no client call, no
    subprocess). *)
Theorem filename_pure_and_cache_hit (url : string) :
  (∀ E w w' f, download E url w = (w', Return f) → derived_filename url = Return f)
  ∧ (∀ E1 E2 w1 w2 w1' w2' f1 f2,
       download E1 url w1 = (w1', Return f1) →
       download E2 url w2 = (w2', Return f2) → f1 = f2)
  ∧ (∀ E w f,
       derived_filename url = Return f →
       is_Some (fs w !! dest_path f) →
       download E url w = (w, Return f))
  ∧ (∀ E w repo_id revision filename_and_path original_filename,
       extract_parts_from_huggingface_url url
         = Return (repo_id, revision, filename_and_path, original_filename) →
       is_Some (fs w !! dest_path (huggingface_filename repo_id original_filename)) →
       download_from_huggingface E url w
         = (w, Return (huggingface_filename repo_id original_filename)))
  ∧ (∀ E w f,
       get_civitai_filename url = Return f →
       is_Some (fs w !! dest_path f) →
       download_from_civitai E url w = (w, Return f))
  ∧ (∀ E w f,
       get_replicate_filename url = Return f →
       is_Some (fs w !! dest_path f) →
       download_from_replicate E url w = (w, Return f)).
Proof.
  split_and!.
  - intros. by eapply download_returns.
  - intros E1 E2 w1 w2 w1' w2' f1 f2 H1 H2.
    apply download_returns in H1, H2. congruence.
  - intros E w f. unfold derived_filename, download.
    destruct (Str.startswith url "https://huggingface.co");
      [|destruct (Str.startswith url "https://civitai.com");
        [|destruct (Str.startswith url "https://replicate.delivery")]].
    + destruct (extract_parts_from_huggingface_url url)
        as [[[[repo_id revision] fp] orig]|e] eqn:Hx; [|done].
      intros [= <-] Hw. by eapply huggingface_cache_hit.
    + apply civitai_cache_hit.
    + apply replicate_cache_hit.
    + done.
  - intros. by eapply huggingface_cache_hit.
  - intros. by apply civitai_cache_hit.
  - intros. by apply replicate_cache_hit.
Qed.

End Cache.

(** ** Lists and fields *)

Lemma split_cons (c : ascii) (s : string) :
  Str.split c s = (Str.split1 c s).1 :: (Str.split1 c s).2.
Proof. unfold Str.split. by destruct (Str.split1 c s). Qed.

Lemma split_parts (c : ascii) (s : string) :
  ∃ w, Str.split c s = w :: tail (Str.split c s).
Proof. rewrite split_cons. by eexists. Qed.

Lemma split1_no_sep (c : ascii) (s : string) :
  Str.contains c (Str.split1 c s).1 = false
  ∧ Forall (λ x, Str.contains c x = false) (Str.split1 c s).2.
Proof.
  induction s as [|a s [IH1 IH2]]; [done|].
  simpl. destruct (Str.split1 c s) as [w ws]. simpl in *.
  destruct (Ascii.eqb a c) eqn:Hac; simpl.
  - split; [done|]. by constructor.
  - by rewrite Hac, IH1.
Qed.

Lemma split_no_sep (c : ascii) (s : string) :
  Forall (λ x, Str.contains c x = false) (Str.split c s).
Proof.
  rewrite split_cons. destruct (split1_no_sep c s). by constructor.
Qed.

Lemma replace_absent (a b : ascii) (s : string) :
  Str.contains a s = false → Str.replace a b s = s.
Proof.
  induction s as [|c s IH]; [done|]. simpl.
  intros [Hc Hs]%orb_false_iff. by rewrite Hc, IH.
Qed.

Lemma replace_app (a b : ascii) (s t : string) :
  Str.replace a b (s +:+ t) = Str.replace a b s +:+ Str.replace a b t.
Proof.
  induction s as [|c s IH]; [done|].
  rewrite append_String. simpl. by rewrite IH, append_String.
Qed.

Lemma get_lookup {A} (l : list A) (i : nat) (x : A) :
  l !! i = Some x → PyList.get l i = Return x.
Proof. unfold PyList.get. by intros ->. Qed.

Lemma get_neg_last {A} (l : list A) (x : A) :
  last l = Some x → PyList.get_neg l 1 = Return x.
Proof.
  intros Hl. unfold PyList.get_neg.
  destruct l as [|y l]; [done|].
  replace (length (y :: l) <? 1)%nat with false
    by (symmetry; apply Nat.ltb_ge; simpl; lia).
  apply get_lookup. rewrite <- Hl, last_lookup. f_equal. simpl. lia.
Qed.

Lemma get_neg_nil {A} (k : nat) :
  (0 < k)%nat → PyList.get_neg (@nil A) k = PyList.index_error.
Proof.
  intros Hk. unfold PyList.get_neg.
  by replace (length (@nil A) <? k)%nat with true
    by (symmetry; apply Nat.ltb_lt; simpl; lia).
Qed.

(** ** HuggingFace URLs *)

Section HuggingFace.
Context `{Unquote}.
Import DownloadExternalLora Urllib.

Lemma repo_id_flat (owner name : string) :
  Str.contains "/" owner = false → Str.contains "/" name = false →
  Str.replace "/" "_" (owner +:+ "/" +:+ name) = owner +:+ "_" +:+ name.
Proof.
  intros Ho Hn.
  by rewrite !replace_app, (replace_absent _ _ owner), (replace_absent _ _ name).
Qed.

Lemma url_path_segments_inv (url : string) (segs : list string) :
  url_path_segments url = Return segs →
  ∃ pr, urlparse url = Return pr ∧ segs = path_segments (path pr).
Proof.
  unfold url_path_segments. destruct (urlparse url) as [pr|e]; [|done].
  intros [= <-]. by exists pr.
Qed.

Lemma extract_parts_enough (url : string) (segs : list string) :
  url_path_segments url = Return segs →
  (5 ≤ length segs)%nat →
  ∃ owner name revision original,
    segment 1 segs = Some owner
    ∧ segment 2 segs = Some name
    ∧ segment 4 segs = Some revision
    ∧ last segs = Some original
    ∧ Str.contains "/" owner = false ∧ Str.contains "/" name = false
    ∧ extract_parts_from_huggingface_url url
      = Return (owner +:+ "/" +:+ name, revision, drop 4 segs, original).
Proof.
  intros (pr & Hp & ->)%url_path_segments_inv Hlen.
  unfold extract_parts_from_huggingface_url, path_segments in *.
  rewrite Hp. simpl.
  pose proof (split_no_sep "/" (path pr)) as Hsep.
  destruct (split_parts "/" (path pr)) as [w Hw].
  destruct (tail (Str.split "/" (path pr)))
    as [|owner [|name [|s3 [|revision [|s5 rest]]]]] eqn:Hsegs;
    simpl in Hlen; try lia.
  rewrite Hw in *. clear Hw.
  apply Forall_cons in Hsep as [_ Hsep].
  apply Forall_cons in Hsep as [Ho Hsep].
  apply Forall_cons in Hsep as [Hn _].
  destruct (last (s5 :: rest)) as [original|] eqn:Hlast;
    [|by apply last_None in Hlast].
  exists owner, name, revision, original.
  split_and!; try done.
  simpl. unfold PyList.slice_from. simpl.
  by rewrite (get_neg_last _ _ Hlast).
Qed.

(** C3. A URL whose path has at least five segments parses: segments 1
    and 2 make the repository ["owner/name"], segment 4 is the revision,
    the segments from 5 on are the remote path, and the last of them is
    the original file name.  Whenever [download_from_huggingface]
    returns, it returns the repository with ['/'] replaced by ['_'] (which
    is ["owner_name"]), then ['_'] and the original file name.  The URL of
    the specification parses to ["org/model"], ["main"],
    ["sub/weights.safetensors"] and derives
    ["org_model_weights.safetensors"]. *)
Theorem huggingface_parse_and_filename :
  (∀ url segs,
     url_path_segments url = Return segs →
     (5 ≤ length segs)%nat →
     ∃ owner name revision original,
       segment 1 segs = Some owner
       ∧ segment 2 segs = Some name
       ∧ segment 4 segs = Some revision
       ∧ last segs = Some original
       ∧ extract_parts_from_huggingface_url url
         = Return (owner +:+ "/" +:+ name, revision, drop 4 segs, original)
       ∧ huggingface_filename (owner +:+ "/" +:+ name) original
         = owner +:+ "_" +:+ name +:+ "_" +:+ original
       ∧ ∀ E w w' f,
           download_from_huggingface E url w = (w', Return f) →
           f = Str.replace "/" "_" (owner +:+ "/" +:+ name) +:+ "_" +:+ original)
  ∧ (let url :=
       "https://huggingface.co/org/model/resolve/main/sub/weights.safetensors" in
     url_path_segments url
       = Return ["org"; "model"; "resolve"; "main"; "sub"; "weights.safetensors"]
     ∧ extract_parts_from_huggingface_url url
       = Return ("org/model", "main", ["sub"; "weights.safetensors"],
                 "weights.safetensors")
     ∧ Str.join "/" ["sub"; "weights.safetensors"] = "sub/weights.safetensors"
     ∧ derived_filename url = Return "org_model_weights.safetensors").
Proof.
  split; [|by vm_compute].
  intros url segs Hp Hlen.
  destruct (extract_parts_enough url segs Hp Hlen)
    as (owner & name & revision & original & H1 & H2 & H4 & Hl & Ho & Hn & Hx).
  exists owner, name, revision, original. split_and!; try done.
  - unfold huggingface_filename. by rewrite repo_id_flat, append_assoc.
  - intros E w w' f Hd.
    apply huggingface_returns in Hd as (r & v & fp & o & Hx' & ->).
    rewrite Hx in Hx'. by simplify_eq.
Qed.

Lemma extract_parts_guard (url : string) (segs : list string) :
  url_path_segments url = Return segs →
  (length segs < 4)%nat →
  extract_parts_from_huggingface_url url = Raise (MalformedUrl url).
Proof.
  intros (pr & Hp & ->)%url_path_segments_inv Hlen.
  unfold extract_parts_from_huggingface_url, path_segments in *.
  rewrite Hp. simpl.
  destruct (split_parts "/" (path pr)) as [w Hw]. rewrite Hw.
  replace (length (w :: tail (Str.split "/" (path pr))) <? 5)%nat with true; [done|].
  symmetry. apply Nat.ltb_lt. simpl. lia.
Qed.

(** C6. The guard of [extract_parts_from_huggingface_url] counts the
    fields of [path.split("/")], the empty one in front of the first
    ['/'] included, so it lets a path of four segments through: the URL
    https://huggingface.co/org/model/resolve/main has the four segments
    org, model, resolve, main, and parsing it raises [IndexError], not
    [MalformedUrl]; [download] raises it too, and touches nothing.  The
    URL https://huggingface.co/org/model of the specification does raise
    [MalformedUrl]. *)
Theorem huggingface_four_segments_index_error :
  let url := "https://huggingface.co/org/model/resolve/main" in
  url_path_segments url = Return ["org"; "model"; "resolve"; "main"]
  ∧ extract_parts_from_huggingface_url url
    = Raise (IndexError "list index out of range")
  ∧ (∀ E w, download E url w = (w, Raise (IndexError "list index out of range")))
  ∧ extract_parts_from_huggingface_url "https://huggingface.co/org/model"
    = Raise (MalformedUrl "https://huggingface.co/org/model").
Proof. by vm_compute. Qed.

End HuggingFace.


(** ** The path of a URL that names a host *)

Lemma find_drop (c : ascii) (u : string) (d : nat) :
  Str.find c u = Some d → ∃ r, Str.drop d u = String c r.
Proof.
  revert d. induction u as [|a u IH]; intros d; [done|]. simpl.
  destruct (Ascii.eqb_spec a c) as [->|Hac].
  - intros [= <-]. by eexists.
  - destruct (Str.find c u) as [i|]; [|done]. simpl. intros [= <-]. by apply IH.
Qed.

Lemma find_from_drop (c : ascii) (start : nat) (u : string) (d : nat) :
  Str.find_from c start u = Some d → ∃ r, Str.drop d u = String c r.
Proof.
  revert u d. induction start as [|n IH]; intros u d.
  - apply find_drop.
  - destruct u as [|a u]; [done|]. simpl.
    destruct (Str.find_from c n u) as [i|] eqn:Hi; [|done].
    intros Hd. simplify_eq/=. by apply IH.
Qed.

Lemma drop_length (u : string) : Str.drop (String.length u) u = "".
Proof. induction u; by simpl. Qed.

Lemma take_length (u : string) : Str.take (String.length u) u = u.
Proof. induction u as [|a u IH]; [done|]. simpl. by rewrite IH. Qed.

Lemma splitnetloc_rest (u : string) (start : nat) :
  (Urllib.splitnetloc u start).2 = ""
  ∨ ∃ c r, c ∈ ["/"; "?"; "#"]%char ∧ (Urllib.splitnetloc u start).2 = String c r.
Proof.
  unfold Urllib.splitnetloc. simpl.
  set (P := λ d : nat,
         Str.drop d u = ""
         ∨ ∃ c r, c ∈ ["/"; "?"; "#"]%char ∧ Str.drop d u = String c r).
  assert (Hstep : ∀ c d, c ∈ ["/"; "?"; "#"]%char → P d →
            P (match Str.find_from c start u with
               | Some wdelim => Nat.min d wdelim
               | None => d
               end)).
  { intros c d Hc Hd.
    destruct (Str.find_from c start u) as [w|] eqn:Hw; [|done].
    destruct (Nat.min_dec d w) as [->| ->]; [done|].
    right. destruct (find_from_drop _ _ _ _ Hw) as [r Hr]. by exists c, r. }
  apply (Hstep "#"%char); [set_solver|].
  apply (Hstep "?"%char); [set_solver|].
  apply (Hstep "/"%char); [set_solver|].
  left. apply drop_length.
Qed.

Lemma cut_first (c a : ascii) (u : string) :
  (Urllib.cut c (String a u)).1
  = if Ascii.eqb a c then "" else String a (Urllib.cut c u).1.
Proof.
  unfold Urllib.cut. simpl. destruct (Ascii.eqb a c); [done|].
  by destruct (Str.split_once c u) as [w [r|]].
Qed.

Lemma take_rooted (n : nat) (u : string) : rooted u → rooted (Str.take n u).
Proof.
  intros [->|Hu]; [left; by destruct n|].
  destruct u as [|a u]; [done|]. destruct n; [by left|by right].
Qed.

Lemma splitparams_take (u : string) : ∃ n, (Urllib.splitparams u).1 = Str.take n u.
Proof.
  unfold Urllib.splitparams. repeat case_match; simpl; eauto.
  exists (String.length u). by rewrite take_length.
Qed.

Lemma urlsplit_https (t : string) :
  Urllib.urlsplit ("https://" +:+ t)
  = (let? (netloc, url) := Urllib.split_netloc ("//" +:+ Urllib.remove_unsafe t) in
     let '(url, fragment) := Urllib.cut "#" url in
     let '(url, query) := Urllib.cut "?" url in
     Return ("https", netloc, url, query, fragment)).
Proof. reflexivity. Qed.

Lemma split_netloc_rest (u : string) (netloc r : string) :
  Urllib.split_netloc ("//" +:+ u) = Return (netloc, r) →
  r = "" ∨ ∃ c r', c ∈ ["/"; "?"; "#"]%char ∧ r = String c r'.
Proof.
  unfold Urllib.split_netloc.
  change (String.eqb (Str.take 2 ("//" +:+ u)) "//") with true. cbv iota.
  pose proof (splitnetloc_rest ("//" +:+ u) 2) as Hr.
  destruct (Urllib.splitnetloc ("//" +:+ u) 2) as [n r0]. simpl in Hr.
  case_match; [done|]. by intros [= <- <-].
Qed.

Lemma urlparse_https_rooted (url : string) (pr : Urllib.ParseResult) :
  Str.startswith url "https://" = true →
  Urllib.urlparse url = Return pr →
  rooted (Urllib.path pr).
Proof.
  intros [t ->]%startswith_inv. unfold Urllib.urlparse.
  rewrite urlsplit_https.
  destruct (Urllib.split_netloc ("//" +:+ Urllib.remove_unsafe t))
    as [[netloc r]|e] eqn:Hn; [|done].
  apply split_netloc_rest in Hn. cbv [rbind]. cbv beta iota.
  assert (Hpath : rooted (Urllib.cut "?" (Urllib.cut "#" r).1).1).
  { destruct Hn as [->|(c & r' & Hc & ->)]; [by left|].
    rewrite cut_first.
    repeat (apply elem_of_cons in Hc as [->|Hc]); [| | |by apply elem_of_nil in Hc];
      simpl; rewrite ?cut_first; simpl; [by right|by left|by left]. }
  destruct (Urllib.cut "#" r) as [u1 fragment]. cbv beta iota. simpl in Hpath.
  destruct (Urllib.cut "?" u1) as [u2 query] eqn:Hq. simpl in Hpath.
  destruct (splitparams_take u2) as [n Hsp]. cbv beta iota.
  destruct (bool_decide ("https" ∈ Urllib.uses_params) && Str.contains ";" u2).
  - destruct (Urllib.splitparams u2) as [u3 ps]. simpl in Hsp. subst u3.
    intros [= <-]. simpl. by apply take_rooted.
  - by intros [= <-].
Qed.

(** ** Civitai URLs *)

Section Civitai.
Context `{Unquote}.
Import DownloadExternalLora Urllib.

Lemma replace_nonempty (a b : ascii) (s : string) :
  s ≠ "" → Str.replace a b s ≠ "".
Proof. by destruct s. Qed.

Lemma unquote_nonempty (s : string) : s ≠ "" → unquote s ≠ "".
Proof.
  intros Hs. unfold unquote. case_match; [|done].
  by apply unquote_escaped_nonempty.
Qed.

Lemma is_empty_false (s : string) : Str.is_empty s = false ↔ s ≠ "".
Proof. by destruct s. Qed.

Lemma parse_qsl_field_values (r : list (string * string)) (field : string) :
  Forall (λ nv, nv.2 ≠ "") r → Forall (λ nv, nv.2 ≠ "") (parse_qsl_field r field).
Proof.
  intros Hr. unfold parse_qsl_field.
  destruct (Str.is_empty field); [done|].
  destruct (Str.split_once "=" field) as [n [v|]]; [|done].
  destruct (Str.is_empty v) eqn:Hv; [done|]. simpl.
  apply Forall_app. split; [done|]. constructor; [|done]. simpl.
  apply unquote_nonempty, replace_nonempty. by apply is_empty_false.
Qed.

Lemma parse_qsl_values (qs : string) :
  Forall (λ nv, nv.2 ≠ "") (parse_qsl qs).
Proof.
  unfold parse_qsl.
  assert (Hnil : Forall (λ nv : string * string, nv.2 ≠ "") []) by constructor.
  revert Hnil. generalize (@nil (string * string)).
  induction (Str.split "&" qs) as [|field fields IH]; intros r Hr; [done|].
  simpl. by apply IH, parse_qsl_field_values.
Qed.

Lemma parse_qs_pair_values (m : gmap string (list string)) (pair : string * string) :
  pair.2 ≠ "" → values_present m → values_present (parse_qs_pair m pair).
Proof.
  destruct pair as [n v]. simpl. intros Hv Hinv k vs.
  destruct (m !! n) as [old|] eqn:Hold.
  - destruct (decide (n = k)) as [->|Hne].
    + rewrite lookup_insert_eq. intros [= <-].
      destruct (Hinv _ _ Hold) as (value & rest & -> & Hne). by eexists _, _.
    + rewrite lookup_insert_ne by done. apply Hinv.
  - destruct (decide (n = k)) as [->|Hne].
    + rewrite lookup_insert_eq. intros [= <-]. by eexists _, _.
    + rewrite lookup_insert_ne by done. apply Hinv.
Qed.

Lemma parse_qs_values (qs : string) : values_present (parse_qs qs).
Proof.
  unfold parse_qs.
  pose proof (parse_qsl_values qs) as Hl. revert Hl.
  assert (Hinv : values_present ∅) by (intros k vs; by rewrite lookup_empty).
  revert Hinv. generalize (∅ : gmap string (list string)).
  induction (parse_qsl qs) as [|pair l IH]; intros m Hinv Hl; [done|].
  apply Forall_cons in Hl as [Hv Hl].
  simpl. apply IH; [|done]. by apply parse_qs_pair_values.
Qed.

Lemma civitai_param_step_fields (qs : string) (parts : list string) (param : string) :
  civitai_param_step (parse_qs qs) parts param
  = Return (parts ++ civitai_fields (parse_qs qs) param).
Proof.
  unfold civitai_param_step, civitai_fields.
  destruct (parse_qs qs !! param) as [values|] eqn:Hv; simpl.
  - destruct (parse_qs_values _ _ _ Hv) as (value & rest & -> & Hne). simpl.
    apply is_empty_false in Hne. by rewrite Hne.
  - by rewrite app_nil_r.
Qed.

Lemma for_each_fields (qs : string) (params parts : list string) :
  for_each (civitai_param_step (parse_qs qs)) params parts
  = Return (foldl (λ acc p, acc ++ civitai_fields (parse_qs qs) p) parts params).
Proof.
  revert parts. induction params as [|param params IH]; intros parts; [done|].
  cbn [for_each foldl]. by rewrite civitai_param_step_fields, <- IH.
Qed.

Lemma join_snoc (parts : list string) (y : string) :
  parts ≠ [] → Str.join "_" (parts ++ [y]) = Str.join "_" parts +:+ "_" +:+ y.
Proof.
  intros Hparts. induction parts as [|x parts IH]; [done|].
  destruct parts as [|z parts]; [done|].
  change (Str.join "_" ((x :: z :: parts) ++ [y]))
    with (x +:+ "_" +:+ Str.join "_" ((z :: parts) ++ [y])).
  rewrite IH by done.
  change (Str.join "_" (x :: z :: parts))
    with (x +:+ "_" +:+ Str.join "_" (z :: parts)).
  by rewrite !append_assoc.
Qed.

Lemma join_fields (qp : gmap string (list string)) (params parts : list string) :
  parts ≠ [] →
  Str.join "_" (foldl (λ acc p, acc ++ civitai_fields qp p) parts params)
  = Str.join "_" parts +:+ foldr (λ p s, civitai_suffix qp p +:+ s) "" params.
Proof.
  revert parts. induction params as [|param params IH]; intros parts Hparts.
  - by rewrite append_empty_r.
  - cbn [foldl foldr]. rewrite IH.
    + rewrite <- append_assoc. f_equal.
      unfold civitai_fields, civitai_suffix.
      destruct (qp !! param) as [[|value rest]|];
        rewrite ?app_nil_r, ?append_empty_r; try done.
      by apply join_snoc.
    + intros Hnil. by apply app_eq_nil in Hnil as [Hnil _].
Qed.

Lemma last_of_rooted_split (path : string) :
  rooted path →
  PyList.get_neg (Str.split "/" path) 1 = Return (last_segment path).
Proof.
  unfold last_segment, path_segments.
  intros [->|[path' ->]%startswith_inv]; [done|].
  change ("/" +:+ path') with (String "/" path').
  rewrite split_cons. simpl.
  destruct (Str.split1 "/" path') as [w ws] eqn:Hs. simpl.
  destruct (last (w :: ws)) as [x|] eqn:Hl; [|by apply last_None in Hl].
  simpl. apply get_neg_last. by rewrite last_cons, Hl.
Qed.

Lemma get_civitai_filename_spec (url : string) (pr : ParseResult) :
  Str.startswith url "https://civitai.com" = true →
  urlparse url = Return pr →
  get_civitai_filename url
  = Return (civitai_filename_spec (last_segment (path pr)) (parse_qs (query pr))).
Proof.
  intros Hpre Hp. unfold get_civitai_filename. rewrite Hp. cbn [rbind].
  rewrite last_of_rooted_split.
  2:{ apply (urlparse_https_rooted url); [|done].
      apply startswith_inv in Hpre as [t ->].
      change ("https://civitai.com" +:+ t) with ("https://" +:+ "civitai.com" +:+ t).
      apply startswith_app. }
  cbn [rbind]. rewrite for_each_fields. cbn [rbind]. rewrite join_fields by done.
  unfold civitai_filename_spec. cbn [foldr Str.join].
  by rewrite !append_assoc.
Qed.

(** C4. For a Civitai URL, the file name is [civitai_], the last segment
    of the path as model identifier, then for each of [type], [format],
    [size], [fp] that the parsed query holds, in that order, ['_'] and the
    lower-cased value, then [.safetensors].  The URL of the specification
    derives ["civitai_12345_model_safetensor.safetensors"]. *)
Theorem civitai_filename :
  (∀ url pr,
     Str.startswith url "https://civitai.com" = true →
     urlparse url = Return pr →
     get_civitai_filename url
     = Return (civitai_filename_spec (last_segment (path pr)) (parse_qs (query pr)))
     ∧ derived_filename url
       = Return (civitai_filename_spec (last_segment (path pr)) (parse_qs (query pr))))
  ∧ get_civitai_filename
      "https://civitai.com/api/download/models/12345?type=Model&format=SafeTensor"
    = Return "civitai_12345_model_safetensor.safetensors".
Proof.
  split; [|by vm_compute].
  intros url pr Hpre Hp.
  pose proof (get_civitai_filename_spec url pr Hpre Hp) as Hf.
  split; [done|]. unfold derived_filename.
  pose proof (prefixes_exclusive url) as Hex.
  unfold provider_prefixes in Hex. rewrite !filter_cons, filter_nil in Hex.
  rewrite Hpre in *.
  destruct (Str.startswith url "https://huggingface.co"); [|done].
  repeat case_decide; simpl in Hex; try lia; congruence.
Qed.

End Civitai.

(** ** Replicate URLs *)

Lemma contains_app (c : ascii) (s t : string) :
  Str.contains c (s +:+ t) = Str.contains c s || Str.contains c t.
Proof.
  induction s as [|a s IH]; [done|].
  rewrite append_String. simpl. by rewrite IH, orb_assoc.
Qed.

Lemma contains_drop (c : ascii) (k : nat) (s : string) :
  Str.contains c s = false → Str.contains c (Str.drop k s) = false.
Proof.
  revert s. induction k as [|k IH]; intros s; [by destruct s|].
  destruct s as [|a s]; [done|]. simpl.
  intros [_ Hs]%orb_false_iff. by apply IH.
Qed.

Lemma find_absent (c : ascii) (s : string) :
  Str.contains c s = false → Str.find c s = None.
Proof.
  induction s as [|a s IH]; [done|]. simpl.
  intros [Ha Hs]%orb_false_iff. by rewrite Ha, IH.
Qed.

Lemma find_lt (c : ascii) (s : string) (k : nat) :
  Str.find c s = Some k → (k < String.length s)%nat.
Proof.
  revert k. induction s as [|a s IH]; intros k; [done|]. simpl.
  destruct (Ascii.eqb a c); [intros [= <-]; lia|].
  destruct (Str.find c s) as [i|]; [|done].
  intros Hk. simplify_eq/=. specialize (IH i eq_refl). lia.
Qed.

Lemma remove_absent (c : ascii) (s : string) :
  Str.contains c s = false → Str.remove c s = s.
Proof.
  induction s as [|a s IH]; [done|]. simpl.
  intros [Ha Hs]%orb_false_iff. by rewrite Ha, IH.
Qed.

Lemma cut_absent (c : ascii) (u : string) :
  Str.contains c u = false → Urllib.cut c u = (u, "").
Proof.
  unfold Urllib.cut. induction u as [|a u IH]; [done|]. simpl.
  intros [Ha Hu]%orb_false_iff. rewrite Ha.
  specialize (IH Hu). destruct (Str.split_once c u) as [w [r|]]; by simplify_eq.
Qed.

(** The fields of a text that holds the separator at [k] for the first
    time: what stands before [k], then the fields of what follows it. *)
Lemma find_split (c : ascii) (s : string) (k : nat) :
  Str.find c s = Some k →
  ∃ r, Str.drop k s = String c r ∧ Str.split c s = Str.take k s :: Str.split c r.
Proof.
  revert k. induction s as [|a s IH]; intros k; [done|]. simpl.
  destruct (Ascii.eqb_spec a c) as [->|Hac].
  - intros [= <-]. exists s. split; [done|].
    rewrite !split_cons. simpl. rewrite Ascii.eqb_refl.
    by destruct (Str.split1 c s).
  - destruct (Str.find c s) as [i|]; [|done].
    intros Hk. simplify_eq/=. destruct (IH i eq_refl) as (r & Hr & Hs).
    exists r. split; [done|].
    rewrite !split_cons in *. simpl.
    apply Ascii.eqb_neq in Hac. rewrite Hac.
    destruct (Str.split1 c s) as [w ws]. by simplify_eq/=.
Qed.

Lemma split_absent (c : ascii) (s : string) :
  Str.contains c s = false → Str.split c s = [s].
Proof.
  rewrite split_cons. induction s as [|a s IH]; [done|]. simpl.
  intros [Ha Hs]%orb_false_iff. rewrite Ha.
  specialize (IH Hs). destruct (Str.split1 c s) as [w ws]. by simplify_eq/=.
Qed.

Lemma split_sep (c : ascii) (s t : string) :
  Str.contains c s = false → Str.split c (s +:+ String c t) = s :: Str.split c t.
Proof.
  intros Hs. rewrite !split_cons. induction s as [|a s IH].
  - change ("" +:+ String c t) with (String c t). simpl.
    rewrite Ascii.eqb_refl. by destruct (Str.split1 c t).
  - simpl in Hs. apply orb_false_iff in Hs as [Ha Hs]. specialize (IH Hs).
    rewrite append_String. simpl. rewrite Ha.
    destruct (Str.split1 c (s +:+ String c t)) as [w ws]. by simplify_eq/=.
Qed.

Lemma get_neg_app {A} (l1 l2 : list A) (k : nat) :
  (0 < k ≤ length l2)%nat →
  PyList.get_neg (l1 ++ l2) k = PyList.get_neg l2 k.
Proof.
  intros Hk. unfold PyList.get_neg, PyList.get. rewrite length_app.
  replace (length l1 + length l2 <? k)%nat with false
    by (symmetry; apply Nat.ltb_ge; lia).
  replace (length l2 <? k)%nat with false
    by (symmetry; apply Nat.ltb_ge; lia).
  rewrite lookup_app_r by lia.
  by replace (length l1 + length l2 - k - length l1)%nat
    with (length l2 - k)%nat by lia.
Qed.

Lemma get_neg_total {A} (l : list A) (k : nat) :
  (0 < k ≤ length l)%nat → ∃ x, PyList.get_neg l k = Return x.
Proof.
  intros Hk. unfold PyList.get_neg, PyList.get.
  replace (length l <? k)%nat with false by (symmetry; apply Nat.ltb_ge; lia).
  destruct (lookup_lt_is_Some_2 l (length l - k)) as [x ->]; [lia|]. by exists x.
Qed.

Lemma splitnetloc_plain (t : string) :
  Str.contains "?" t = false → Str.contains "#" t = false →
  Urllib.splitnetloc ("//" +:+ t) 2
  = match Str.find "/" t with
    | Some k => (Str.take k t, Str.drop k t)
    | None => (t, "")
    end.
Proof.
  intros Hq Hh. unfold Urllib.splitnetloc. cbn [foldl].
  change (Str.find_from ?c 2 ("//" +:+ t)) with (S <$> (S <$> Str.find c t)).
  rewrite (find_absent "?" t Hq), (find_absent "#" t Hh). simpl.
  destruct (Str.find "/" t) as [k|] eqn:Hk; simpl; change ("" +:+ t) with t.
  - apply find_lt in Hk.
    replace (String.length t `min` k)%nat with k by lia. done.
  - by rewrite take_length, drop_length.
Qed.

Section Replicate.
Context `{Unquote}.
Import DownloadExternalLora Urllib.

Lemma replicate_split (t : string) :
  Str.split "/" ("https://replicate.delivery" +:+ t)
  = "https:" :: "" :: Str.split "/" ("replicate.delivery" +:+ t).
Proof.
  change ("https://replicate.delivery" +:+ t)
    with ("https:" +:+ String "/" ("" +:+ String "/" ("replicate.delivery" +:+ t))).
  by rewrite !split_sep.
Qed.

(** A Replicate URL has at least three fields between its ['/']s, so the
    second-to-last one exists. *)
Lemma replicate_filename_total (url : string) :
  Str.startswith url "https://replicate.delivery" = true →
  ∃ field, PyList.get_neg (Str.split "/" url) 2 = Return field
           ∧ get_replicate_filename url
             = Return ("replicate_lora_" +:+ field +:+ ".safetensors").
Proof.
  intros [t ->]%startswith_inv. unfold get_replicate_filename.
  rewrite replicate_split.
  destruct (split_parts "/" ("replicate.delivery" +:+ t)) as [w ->].
  destruct (get_neg_total
              ("https:" :: "" :: w :: tail (Str.split "/" ("replicate.delivery" +:+ t))) 2)
    as [field Hf]; [simpl; lia|].
  exists field. by rewrite Hf.
Qed.

Lemma plain_url_tail (p t : string) (c : ascii) :
  plain_url (p +:+ t) → c ∈ path_breakers → Str.contains c t = false.
Proof.
  unfold plain_url. rewrite Forall_forall. intros Hplain Hc.
  specialize (Hplain c Hc). rewrite contains_app in Hplain.
  by apply orb_false_iff in Hplain as [_ ?].
Qed.

Lemma replicate_plain_segments (url : string) (segs : list string) :
  Str.startswith url "https://replicate.delivery" = true →
  plain_url url →
  url_path_segments url = Return segs →
  ∃ host, Str.split "/" url = ["https:"; ""; host] ++ segs.
Proof.
  intros [t ->]%startswith_inv Hplain.
  rewrite replicate_split.
  change ("https://replicate.delivery" +:+ t)
    with ("https://" +:+ "replicate.delivery" +:+ t) in *.
  generalize dependent ("replicate.delivery" +:+ t). clear t. intros t0 Hplain.
  assert (Hq : Str.contains "?" t0 = false)
    by (apply (plain_url_tail _ _ _ Hplain); repeat constructor).
  assert (Hh : Str.contains "#" t0 = false)
    by (apply (plain_url_tail _ _ _ Hplain); repeat constructor).
  assert (Hs : Str.contains ";" t0 = false)
    by (apply (plain_url_tail _ _ _ Hplain); repeat constructor).
  assert (Ht : Str.contains "009" t0 = false)
    by (apply (plain_url_tail _ _ _ Hplain); repeat constructor).
  assert (Hr : Str.contains "013" t0 = false)
    by (apply (plain_url_tail _ _ _ Hplain); repeat constructor).
  assert (Hn : Str.contains "010" t0 = false)
    by (apply (plain_url_tail _ _ _ Hplain); repeat constructor).
  clear Hplain.
  unfold url_path_segments, urlparse.
  rewrite urlsplit_https. unfold remove_unsafe.
  rewrite (remove_absent "009" t0 Ht), (remove_absent "013" t0 Hr),
    (remove_absent "010" t0 Hn).
  unfold split_netloc.
  change (String.eqb (Str.take 2 ("//" +:+ t0)) "//") with true. cbv iota.
  rewrite (splitnetloc_plain t0 Hq Hh).
  destruct (Str.find "/" t0) as [k|] eqn:Hk.
  - destruct (find_split _ _ _ Hk) as (r & Hdrop & Hsplit).
    case_match; [done|]. cbn [rbind].
    rewrite (cut_absent "#" _ (contains_drop "#" k t0 Hh)). cbv beta iota zeta.
    rewrite (cut_absent "?" _ (contains_drop "?" k t0 Hq)). cbv [rbind].
    rewrite (contains_drop ";" k t0 Hs), andb_false_r.
    cbn [path]. intros [= <-].
    exists (Str.take k t0). rewrite Hsplit, Hdrop. unfold path_segments.
    change (String "/" r) with ("" +:+ String "/" r).
    by rewrite split_sep.
  - case_match; [done|]. cbn [rbind].
    rewrite (cut_absent "#" "" eq_refl). cbv beta iota zeta.
    rewrite (cut_absent "?" "" eq_refl). cbv [rbind].
    cbn [path Str.contains]. rewrite andb_false_r. intros [= <-].
    exists t0. rewrite split_absent; [done|].
    destruct (Str.contains "/" t0) eqn:Hc; [|done].
    exfalso. clear -Hk Hc. induction t0 as [|a s IH]; [done|].
    simpl in *. destruct (Ascii.eqb a "/"); [done|].
    destruct (Str.find "/" s); [done|]. by apply IH.
Qed.

Lemma derived_filename_replicate (url : string) :
  Str.startswith url "https://replicate.delivery" = true →
  derived_filename url = get_replicate_filename url.
Proof.
  intros Hpre. unfold derived_filename.
  pose proof (prefixes_exclusive url) as Hex.
  unfold provider_prefixes in Hex. rewrite !filter_cons, filter_nil in Hex.
  rewrite Hpre in *.
  destruct (Str.startswith url "https://huggingface.co");
    destruct (Str.startswith url "https://civitai.com"); try done;
    repeat case_decide; simpl in Hex; try lia; congruence.
Qed.

(** C5 (amended). For a Replicate URL the file name is [replicate_lora_],
    the second-to-last of the fields that the ['/']s of the whole URL
    separate, and [.safetensors]; the field always exists.  When the URL is
    plain (no ['?'], ['#'], [';'], tab or line break) and its path has at
    least two segments, that field is the second-to-last path segment.  The
    URL of the specification derives
    ["replicate_lora_abcdef123.safetensors"]. *)
Theorem replicate_filename :
  (∀ url,
     Str.startswith url "https://replicate.delivery" = true →
     ∃ field,
       PyList.get_neg (Str.split "/" url) 2 = Return field
       ∧ get_replicate_filename url
         = Return ("replicate_lora_" +:+ field +:+ ".safetensors")
       ∧ derived_filename url
         = Return ("replicate_lora_" +:+ field +:+ ".safetensors"))
  ∧ (∀ url segs,
       Str.startswith url "https://replicate.delivery" = true →
       plain_url url →
       url_path_segments url = Return segs →
       (2 ≤ length segs)%nat →
       ∃ seg,
         PyList.get_neg segs 2 = Return seg
         ∧ get_replicate_filename url
           = Return ("replicate_lora_" +:+ seg +:+ ".safetensors"))
  ∧ get_replicate_filename
      "https://replicate.delivery/pbxt/abcdef123/trained_model.tar"
    = Return "replicate_lora_abcdef123.safetensors".
Proof.
  split_and!; [| |by vm_compute].
  - intros url Hpre.
    destruct (replicate_filename_total url Hpre) as (field & Hf & Hn).
    exists field. split_and!; try done. by rewrite derived_filename_replicate.
  - intros url segs Hpre Hplain Hsegs Hlen.
    destruct (replicate_plain_segments url segs Hpre Hplain Hsegs) as [host Hsplit].
    destruct (get_neg_total segs 2) as [seg Hseg]; [lia|].
    exists seg. split; [done|].
    unfold get_replicate_filename.
    by rewrite Hsplit, get_neg_app, Hseg by lia.
Qed.

End Replicate.

(** C5, as stated, fails: the query of a URL may hold a ['/'], and then the
    second-to-last field of the URL is not a path segment.  Here the path
    segments are pbxt, abc, trained_model.tar, and the name is derived from
    ["trained_model.tar?sig=a"]. *)
Lemma replicate_filename_not_path_segment :
  let url := "https://replicate.delivery/pbxt/abc/trained_model.tar?sig=a/b" in
  url_path_segments url = Return ["pbxt"; "abc"; "trained_model.tar"]
  ∧ PyList.get_neg ["pbxt"; "abc"; "trained_model.tar"] 2 = Return "abc"
  ∧ DownloadExternalLora.get_replicate_filename url
    = Return "replicate_lora_trained_model.tar?sig=a.safetensors"
  ∧ DownloadExternalLora.get_replicate_filename url
    ≠ Return "replicate_lora_abc.safetensors".
Proof. by vm_compute. Qed.

(** ** Failures of the fast-fetch step and of the archive *)

Section Failures.
Context `{Unquote}.
Import DownloadExternalLora.

(** What [download_from_civitai] does on a cache miss, by the way the
    fast-fetch ends: it adds nothing to what the process did. *)
Lemma civitai_cache_miss (E : Externals) (url : string) (w : world)
    (f : string) (files : gmap string string) (outcome : proc_outcome) :
  get_civitai_filename url = Return f →
  fs w !! dest_path f = None →
  run_process E ["pget"; "-f"; url; dest_path f] 600 (fs w) = (files, outcome) →
  download_from_civitai E url w
  = ({| fs := files;
        calls := calls w ++ [Subprocess ["pget"; "-f"; url; dest_path f] 600] |},
     match outcome with
     | Exited returncode =>
         if (returncode =? 0)%Z then Return f else Raise DownloadFailed
     | TimedOut => Raise DownloadTimeout
     | LaunchFailed msg => Raise (OSError msg)
     end).
Proof.
  intros Hf Hmiss Hrun. unfold download_from_civitai. run_monad.
  rewrite Hf. fold (dest_path f).
  rewrite bool_decide_eq_false_2 by (rewrite Hmiss; by intros [? ?]).
  rewrite Hrun. destruct outcome as [returncode| |msg]; simpl; [|done..].
  by destruct (returncode =? 0)%Z.
Qed.

(** C9 (amended). On a cache miss of a Civitai URL, a fast-fetch that
    exits with a status other than zero raises [DownloadFailed], and one
    that exceeds the 600 seconds raises [DownloadTimeout].  In both cases
    the file system afterwards is the one the fast-fetch left: the code
    neither writes nor removes a file, so the destination is absent exactly
    when the fast-fetch left nothing there. *)
Theorem civitai_fetch_failures (E : Externals) (url : string) (w : world)
    (f : string) (files : gmap string string) (outcome : proc_outcome) :
  get_civitai_filename url = Return f →
  fs w !! dest_path f = None →
  run_process E ["pget"; "-f"; url; dest_path f] 600 (fs w) = (files, outcome) →
  let w' := {| fs := files;
               calls := calls w
                        ++ [Subprocess ["pget"; "-f"; url; dest_path f] 600] |} in
  (∀ returncode, outcome = Exited returncode → returncode ≠ 0 →
     download_from_civitai E url w = (w', Raise DownloadFailed))
  ∧ (outcome = TimedOut →
     download_from_civitai E url w = (w', Raise DownloadTimeout))
  ∧ (fs w' !! dest_path f = None ↔ files !! dest_path f = None).
Proof.
  intros Hf Hmiss Hrun w'.
  pose proof (civitai_cache_miss E url w f files outcome Hf Hmiss Hrun) as Hd.
  split_and!; [| |done].
  - intros returncode -> Hne. rewrite Hd.
    apply Z.eqb_neq in Hne. by rewrite Hne.
  - intros ->. by rewrite Hd.
Qed.

End Failures.

(** C9, as stated, fails: the fast-fetch writes at the destination itself,
    and what it wrote before it failed stays there.  Here it leaves a
    partial file and exits with status 1: [DownloadFailed] is raised and
    the destination file is present afterwards. *)
Lemma civitai_failure_leaves_partial_file :
  let url :=
    "https://civitai.com/api/download/models/12345?type=Model&format=SafeTensor" in
  let E := toy_externals (fetch_writing "partial" (Exited 1)) in
  let dest := dest_path "civitai_12345_model_safetensor.safetensors" in
  fs empty_world !! dest = None
  ∧ (DownloadExternalLora.download (H := AsciiUnquote.instance) E url empty_world).2
    = Raise DownloadFailed
  ∧ fs (DownloadExternalLora.download (H := AsciiUnquote.instance) E url empty_world).1
       !! dest
    = Some "partial".
Proof. by vm_compute. Qed.

(** C7. [download_from_replicate] does not look at how the fast-fetch
    ended.  With an exit status of 1 and an archive at the scratch path the
    call returns the file name and writes the destination: no
    [DownloadFailed].  With a timeout, the [TimeoutExpired] of
    [subprocess.run] leaves the call as it is, where the Civitai path
    raises [DownloadTimeout]. *)
Theorem replicate_ignores_fetch_failure :
  let url := "https://replicate.delivery/pbxt/abcdef123/trained_model.tar" in
  let f := "replicate_lora_abcdef123.safetensors" in
  let scratch := Os.path_join HF_TEMP_DIR f in
  let cmd := ["pget"; "-f"; url; scratch] in
  DownloadExternalLora.download (H := AsciiUnquote.instance)
    (toy_externals (fetch_writing "tar with lora" (Exited 1))) url empty_world
  = ({| fs := {[ dest_path f := "weights" ]}; calls := [Subprocess cmd 600] |},
     Return f)
  ∧ DownloadExternalLora.download (H := AsciiUnquote.instance)
      (toy_externals (fetch_nothing TimedOut)) url empty_world
    = ({| fs := ∅; calls := [Subprocess cmd 600] |},
       Raise (TimeoutExpired cmd 600))
  ∧ Raise (A := string) (TimeoutExpired cmd 600) ≠ Raise DownloadTimeout.
Proof. by vm_compute. Qed.

(** C8. [TarFile.extractfile] raises [KeyError] for a name that is not in
    the archive; it returns [None], which the code turns into
    [ArchiveEntryMissing], only for a member without data.  With an archive
    that lacks the entry the call raises [KeyError]; nothing is written at
    the destination, and the scratch archive stays. *)
Theorem replicate_missing_entry_key_error :
  let url := "https://replicate.delivery/pbxt/abcdef123/trained_model.tar" in
  let f := "replicate_lora_abcdef123.safetensors" in
  let scratch := Os.path_join HF_TEMP_DIR f in
  let cmd := ["pget"; "-f"; url; scratch] in
  toy_tar "tar without lora" = Return ∅
  ∧ DownloadExternalLora.download (H := AsciiUnquote.instance)
      (toy_externals (fetch_writing "tar without lora" (Exited 0))) url empty_world
    = ({| fs := {[ scratch := "tar without lora" ]}; calls := [Subprocess cmd 600] |},
       Raise (KeyError ("filename '" +:+ lora_entry +:+ "' not found")))
  ∧ Raise (A := string) (KeyError ("filename '" +:+ lora_entry +:+ "' not found"))
    ≠ Raise ArchiveEntryMissing
  ∧ DownloadExternalLora.download (H := AsciiUnquote.instance)
      (toy_externals (fetch_writing "tar with lora directory" (Exited 0)))
      url empty_world
    = ({| fs := {[ scratch := "tar with lora directory" ]};
          calls := [Subprocess cmd 600] |},
       Raise ArchiveEntryMissing).
Proof. by vm_compute. Qed.

(** ** The workflow document *)

Section Workflow.
Import Predictor.

Lemma rbind_inv {A B} (r : result A) (k : A → result B) (b : B) :
  rbind r k = Return b → ∃ a, r = Return a ∧ k a = Return b.
Proof. destruct r as [a|e]; [|done]. intros Hk. by exists a. Qed.

Lemma assign_inv (workflow : json) (ref key : string) (value workflow' : json) :
  assign workflow ref key value = Return workflow' →
  ∃ m n i,
    workflow = JObj m ∧ m !! ref = Some (JObj n) ∧ n !! "inputs" = Some (JObj i)
    ∧ workflow' = JObj (<[ref := JObj (<["inputs" := JObj (<[key := value]> i)]> n)]> m).
Proof.
  unfold assign, getitem, setitem. intros Ha.
  destruct workflow as [| | | | | |m]; try done.
  destruct (m !! ref) as [[| | | | | |n]|] eqn:Hm; try done.
  simpl in Ha. destruct (n !! "inputs") as [[| | | | | |i]|] eqn:Hn; try done.
  simpl in Ha. exists m, n, i. by simplify_eq.
Qed.

Lemma assign_total (workflow : json) (ref key : string) (value : json) :
  has_inputs workflow ref → ∃ workflow', assign workflow ref key value = Return workflow'.
Proof.
  intros (m & n & i & -> & Hm & Hn). unfold assign, getitem, setitem.
  rewrite Hm. simpl. rewrite Hn. simpl. by eexists.
Qed.

Lemma inputs_of_total (workflow : json) (node : string) :
  has_inputs workflow node → inputs_of workflow node = Return node.
Proof.
  intros (m & n & i & -> & Hm & Hn). unfold inputs_of, getitem.
  rewrite Hm. simpl. by rewrite Hn.
Qed.

(** An assignment keeps the nodes that have inputs. *)
Lemma assign_has_inputs (workflow : json) (ref key : string) (value workflow' : json)
    (node : string) :
  assign workflow ref key value = Return workflow' →
  has_inputs workflow node → has_inputs workflow' node.
Proof.
  intros (m & n & i & -> & Hm & Hn & ->)%assign_inv (m' & n' & i' & Heq & Hm' & Hn').
  simplify_eq. destruct (decide (ref = node)) as [->|Hne].
  - eexists _, _, _. split; [done|]. rewrite lookup_insert_eq. split; [done|].
    by rewrite lookup_insert_eq.
  - eexists _, _, _. split; [done|]. by rewrite lookup_insert_ne.
Qed.

(** The field that an assignment writes holds the value afterwards. *)
Lemma assign_same (workflow : json) (ref key : string) (value workflow' : json) :
  assign workflow ref key value = Return workflow' →
  input_field workflow' ref key = Return value.
Proof.
  intros (m & n & i & -> & Hm & Hn & ->)%assign_inv.
  unfold input_field, getitem. rewrite lookup_insert_eq. simpl.
  rewrite lookup_insert_eq. simpl. by rewrite lookup_insert_eq.
Qed.

(** Every other field is as it was. *)
Lemma assign_other (workflow : json) (ref key : string) (value workflow' : json)
    (node field : string) :
  assign workflow ref key value = Return workflow' →
  (ref, key) ≠ (node, field) →
  input_field workflow' node field = input_field workflow node field.
Proof.
  intros (m & n & i & -> & Hm & Hn & ->)%assign_inv Hne.
  unfold input_field, getitem.
  destruct (decide (ref = node)) as [->|Hnode].
  - rewrite lookup_insert_eq, Hm. simpl. rewrite lookup_insert_eq, Hn. simpl.
    rewrite lookup_insert_ne; [done|]. congruence.
  - by rewrite lookup_insert_ne.
Qed.

Lemma dict_lookup_total (d : list (string * string)) (k : string) :
  k ∈ d.*1 → ∃ v, dict_lookup d k = Return v.
Proof.
  intros Hk. unfold dict_lookup.
  destruct ((list_to_map d : gmap string string) !! k) as [v|] eqn:Hv; [by exists v|].
  by apply not_elem_of_list_to_map in Hv.
Qed.

Lemma inputs_of_inv (workflow : json) (node ref : string) :
  inputs_of workflow node = Return ref → ref = node.
Proof.
  unfold inputs_of. intros (n & _ & (i & _ & Hr)%rbind_inv)%rbind_inv.
  by simplify_eq.
Qed.

(** Reads a field of the final document back through the assignments that
    led to it. *)
Ltac read_back :=
  repeat match goal with
         | Ha : assign ?w ?r ?k ?v = Return ?w' |- input_field ?w' _ _ = _ =>
             first [ rewrite (assign_same _ _ _ _ _ Ha); reflexivity
                   | rewrite (assign_other _ _ _ _ _ _ _ Ha) by (by intros [=]) ]
         end.

#[local] Opaque assign inputs_of.

Lemma update_workflow_fields (workflow : json) (kw : kwargs) (workflow' : json) :
  update_workflow workflow kw = Return workflow' →
  input_field workflow' "57" "clip_l" = Return (JStr ("nsfw, " +:+ negative_prompt kw))
  ∧ input_field workflow' "57" "t5xxl" = Return (JStr ("nsfw, " +:+ negative_prompt kw))
  ∧ input_field workflow' "57" "guidance" = Return (JFloat (guidance_scale kw))
  ∧ input_field workflow' "53" "guidance" = Return (JFloat (guidance_scale kw)).
Proof.
  unfold update_workflow. intros Hu.
  repeat (apply rbind_inv in Hu as (? & ? & Hu)).
  repeat match goal with
         | Hi : inputs_of _ _ = Return _ |- _ => apply inputs_of_inv in Hi; subst
         end.
  split_and!; read_back.
Qed.

#[local] Transparent assign inputs_of.

Lemma control_weights_known (control_type : string) :
  control_type ∈ ["canny"; "soft_edge"; "depth"] →
  ∃ weights, control_weights_map control_type = Return weights.
Proof. intros Hc. by apply dict_lookup_total. Qed.

Lemma preprocessor_known (a : predict_args) :
  valid_choices a →
  ∃ label,
    preprocessor_map
      (if String.eqb (arg_control_type a) "depth" then arg_depth_preprocessor a
       else if String.eqb (arg_control_type a) "soft_edge"
            then arg_soft_edge_preprocessor a
            else "Canny")
    = Return label.
Proof.
  intros (Hc & Hd & Hs). apply dict_lookup_total.
  repeat (apply elem_of_cons in Hc as [->|Hc]); [| | |by apply elem_of_nil in Hc];
    simpl.
  - repeat constructor.
  - repeat (apply elem_of_cons in Hs as [->|Hs]); [| | |by apply elem_of_nil in Hs];
      simpl; repeat constructor.
  - repeat (apply elem_of_cons in Hd as [->|Hd]); [| | | |by apply elem_of_nil in Hd];
      simpl; repeat constructor.
Qed.

(** One assignment of [update_workflow] on a document whose nodes all have
    inputs: it succeeds, and the nodes still have inputs. *)
Ltac assign_step :=
  match goal with
  | Hall : Forall (has_inputs ?w) workflow_nodes
    |- context [inputs_of ?w ?node] =>
      rewrite (inputs_of_total w node)
        by (rewrite Forall_forall in Hall; apply Hall; repeat constructor);
      cbn [rbind]
  | Hall : Forall (has_inputs ?w) workflow_nodes
    |- context [assign ?w ?ref ?key ?value] =>
      let w' := fresh "workflow" in
      let Hw := fresh "Hassign" in
      destruct (assign_total w ref key value) as [w' Hw];
      [rewrite Forall_forall in Hall; apply Hall; repeat constructor|];
      rewrite Hw; cbn [rbind];
      let Hall' := fresh "Hall" in
      assert (Hall' : Forall (has_inputs w') workflow_nodes)
        by (eapply Forall_impl; [exact Hall|];
            intros ? ?; by eapply assign_has_inputs);
      clear Hall Hw
  end.

Lemma update_workflow_total (workflow : json) (a : predict_args)
    (generated_seed : Z) (image : option string) :
  Forall (has_inputs workflow) workflow_nodes →
  valid_choices a →
  ∃ workflow', predict_workflow workflow a generated_seed image = Return workflow'.
Proof.
  intros Hall Hvalid.
  destruct (control_weights_known (arg_control_type a)) as [weights Hweights];
    [apply Hvalid|].
  destruct (preprocessor_known a Hvalid) as [label Hlabel].
  unfold predict_workflow, update_workflow.
  cbn [prompt negative_prompt control_type control_image_filename control_strength
       guidance_scale steps soft_edge_preprocessor depth_preprocessor
       image_to_image_strength seed].
  do 19 assign_step.
  rewrite Hweights. cbn [rbind]. do 2 assign_step.
  rewrite Hlabel. cbn [rbind].
  match goal with
  | Hall : Forall (has_inputs ?w) workflow_nodes |- _ =>
      apply assign_total; rewrite Forall_forall in Hall; apply Hall;
      repeat constructor
  end.
Qed.

(** C10. Whenever the call of [update_workflow] in [predict] returns, the
    document it hands on has, in the inputs of node ["57"], ["nsfw, "]
    followed by the negative prompt of the request under [clip_l] and under
    [t5xxl], and the guidance scale of the request under [guidance] of the
    nodes ["57"] and ["53"].  The call returns for every request whose
    choices are the declared ones, on every document in which the seven
    nodes that are written to have inputs. *)
Theorem negative_prompt_and_guidance (workflow : json) (a : predict_args)
    (generated_seed : Z) (image : option string) :
  (∀ workflow',
     predict_workflow workflow a generated_seed image = Return workflow' →
     input_field workflow' "57" "clip_l"
       = Return (JStr ("nsfw, " +:+ arg_negative_prompt a))
     ∧ input_field workflow' "57" "t5xxl"
       = Return (JStr ("nsfw, " +:+ arg_negative_prompt a))
     ∧ input_field workflow' "57" "guidance" = Return (JFloat (arg_guidance_scale a))
     ∧ input_field workflow' "53" "guidance" = Return (JFloat (arg_guidance_scale a)))
  ∧ (Forall (has_inputs workflow) workflow_nodes →
     valid_choices a →
     ∃ workflow', predict_workflow workflow a generated_seed image = Return workflow').
Proof.
  split.
  - intros workflow' Hp. by apply update_workflow_fields in Hp.
  - apply update_workflow_total.
Qed.

End Workflow.

(** ** The statements at concrete inputs *)

Section Witnesses.
Import DownloadExternalLora Urllib Predictor.
#[local] Existing Instance AsciiUnquote.instance.

Lemma download_dispatch_witness :
  download (toy_externals (fetch_nothing (Exited 1)))
    "https://civitai.com/api/download/models/12345?type=Model" empty_world
  = download_from_civitai (toy_externals (fetch_nothing (Exited 1)))
      "https://civitai.com/api/download/models/12345?type=Model" empty_world
  ∧ download (toy_externals (fetch_nothing (Exited 1)))
      "ftp://replicate.delivery/pbxt/abc/trained_model.tar" empty_world
    = (empty_world, Raise UnsupportedSource).
Proof.
  split.
  - apply (download_dispatch (toy_externals (fetch_nothing (Exited 1)))
             "https://civitai.com/api/download/models/12345?type=Model" empty_world).
    reflexivity.
  - apply (download_dispatch (toy_externals (fetch_nothing (Exited 1)))
             "ftp://replicate.delivery/pbxt/abc/trained_model.tar" empty_world).
    repeat constructor.
Defined.

Lemma filename_pure_and_cache_hit_witness :
  download (toy_externals (fetch_nothing TimedOut))
    "https://civitai.com/api/download/models/12345?type=Model&format=SafeTensor"
    {| fs := {[ dest_path "civitai_12345_model_safetensor.safetensors" := "dummy" ]};
       calls := [] |}
  = ({| fs := {[ dest_path "civitai_12345_model_safetensor.safetensors" := "dummy" ]};
        calls := [] |},
     Return "civitai_12345_model_safetensor.safetensors").
Proof.
  apply (filename_pure_and_cache_hit
           "https://civitai.com/api/download/models/12345?type=Model&format=SafeTensor").
  - vm_compute. reflexivity.
  - exists "dummy". vm_compute. reflexivity.
Defined.

Lemma huggingface_parse_and_filename_witness :
  ∃ owner name revision original,
    segment 1 ["org"; "model"; "resolve"; "main"; "weights.safetensors"] = Some owner
    ∧ segment 2 ["org"; "model"; "resolve"; "main"; "weights.safetensors"] = Some name
    ∧ segment 4 ["org"; "model"; "resolve"; "main"; "weights.safetensors"]
      = Some revision
    ∧ last ["org"; "model"; "resolve"; "main"; "weights.safetensors"] = Some original
    ∧ extract_parts_from_huggingface_url
        "https://huggingface.co/org/model/resolve/main/weights.safetensors"
      = Return (owner +:+ "/" +:+ name, revision,
                drop 4 ["org"; "model"; "resolve"; "main"; "weights.safetensors"],
                original)
    ∧ huggingface_filename (owner +:+ "/" +:+ name) original
      = owner +:+ "_" +:+ name +:+ "_" +:+ original
    ∧ ∀ E w w' f,
        download_from_huggingface E
          "https://huggingface.co/org/model/resolve/main/weights.safetensors" w
        = (w', Return f) →
        f = Str.replace "/" "_" (owner +:+ "/" +:+ name) +:+ "_" +:+ original.
Proof.
  apply (proj1 huggingface_parse_and_filename
           "https://huggingface.co/org/model/resolve/main/weights.safetensors"
           ["org"; "model"; "resolve"; "main"; "weights.safetensors"]).
  - vm_compute. reflexivity.
  - simpl. lia.
Defined.

Lemma civitai_filename_witness :
  get_civitai_filename "https://civitai.com/api/download/models/777?fp=FP16&size=Full"
  = Return (civitai_filename_spec (last_segment "/api/download/models/777")
              (parse_qs "fp=FP16&size=Full"))
  ∧ derived_filename "https://civitai.com/api/download/models/777?fp=FP16&size=Full"
    = Return (civitai_filename_spec (last_segment "/api/download/models/777")
                (parse_qs "fp=FP16&size=Full")).
Proof.
  apply (proj1 civitai_filename
           "https://civitai.com/api/download/models/777?fp=FP16&size=Full"
           {| scheme := "https"; netloc := "civitai.com";
              path := "/api/download/models/777"; params := "";
              query := "fp=FP16&size=Full"; fragment := "" |}).
  - reflexivity.
  - vm_compute. reflexivity.
Defined.

Lemma replicate_filename_witness :
  ∃ seg,
    PyList.get_neg ["pbxt"; "abcdef123"; "trained_model.tar"] 2 = Return seg
    ∧ get_replicate_filename
        "https://replicate.delivery/pbxt/abcdef123/trained_model.tar"
      = Return ("replicate_lora_" +:+ seg +:+ ".safetensors").
Proof.
  apply (proj1 (proj2 replicate_filename)
           "https://replicate.delivery/pbxt/abcdef123/trained_model.tar"
           ["pbxt"; "abcdef123"; "trained_model.tar"]).
  - reflexivity.
  - repeat constructor.
  - vm_compute. reflexivity.
  - simpl. lia.
Defined.

Lemma civitai_fetch_failures_witness :
  download_from_civitai (toy_externals (fetch_nothing (Exited 1)))
    "https://civitai.com/api/download/models/12345?type=Model&format=SafeTensor"
    empty_world
  = ({| fs := ∅;
        calls :=
          [Subprocess
             ["pget"; "-f";
              "https://civitai.com/api/download/models/12345?type=Model&format=SafeTensor";
              dest_path "civitai_12345_model_safetensor.safetensors"] 600] |},
     Raise DownloadFailed).
Proof.
  apply (proj1 (civitai_fetch_failures (toy_externals (fetch_nothing (Exited 1)))
                  "https://civitai.com/api/download/models/12345?type=Model&format=SafeTensor"
                  empty_world "civitai_12345_model_safetensor.safetensors" ∅ (Exited 1)
                  ltac:(vm_compute; reflexivity) ltac:(vm_compute; reflexivity)
                  ltac:(reflexivity))
           1 eq_refl).
  lia.
Defined.

Lemma negative_prompt_and_guidance_witness :
  ∃ workflow',
    predict_workflow sample_workflow sample_args 42 (Some "control_image.png")
    = Return workflow'
    ∧ input_field workflow' "57" "clip_l" = Return (JStr "nsfw, blurry")
    ∧ input_field workflow' "57" "t5xxl" = Return (JStr "nsfw, blurry")
    ∧ input_field workflow' "57" "guidance" = Return (JFloat 3.5%float)
    ∧ input_field workflow' "53" "guidance" = Return (JFloat 3.5%float).
Proof.
  destruct (proj2 (negative_prompt_and_guidance sample_workflow sample_args 42
                     (Some "control_image.png")))
    as [workflow' Hw].
  - repeat constructor; eexists _, _, _; (split; [reflexivity|]); split; reflexivity.
  - split_and!; repeat constructor.
  - exists workflow'. split; [exact Hw|].
    exact (proj1 (negative_prompt_and_guidance sample_workflow sample_args 42
                    (Some "control_image.png")) workflow' Hw).
Defined.

End Witnesses.

(** * Further properties of the fetcher *)

(** ** Outcomes of the parsers *)

Lemma get_inv {A} (l : list A) (i : nat) (x : A) :
  PyList.get l i = Return x → l !! i = Some x.
Proof. unfold PyList.get. by destruct (l !! i); intros; simplify_eq. Qed.

Lemma get_neg_inv {A} (l : list A) (x : A) :
  PyList.get_neg l 1 = Return x → last l = Some x.
Proof.
  unfold PyList.get_neg. case_match; [done|].
  intros Hx%get_inv. rewrite last_lookup, <- Hx. f_equal. lia.
Qed.

Lemma find_present (c : ascii) (s : string) :
  Str.contains c s = true → ∃ k, Str.find c s = Some k.
Proof.
  induction s as [|a s IH]; [done|]. simpl.
  destruct (Ascii.eqb a c); [by eexists|]. simpl.
  intros [k ->]%IH. by eexists.
Qed.

Lemma urlparse_raises (url : string) (e : exn) :
  Urllib.urlparse url = Raise e → e = ValueError "Invalid IPv6 URL".
Proof.
  unfold Urllib.urlparse, Urllib.urlsplit.
  destruct (Urllib.split_scheme (Urllib.remove_unsafe url)) as [scheme rest].
  unfold Urllib.split_netloc.
  destruct (String.eqb (Str.take 2 rest) "//").
  - destruct (Urllib.splitnetloc rest 2) as [netloc rest'].
    case_match; cbn [rbind]; [by intros [= <-]|].
    destruct (Urllib.cut "#" rest') as [u1 fragment].
    destruct (Urllib.cut "?" u1) as [u2 query]. cbn [rbind].
    by repeat case_match.
  - cbn [rbind].
    destruct (Urllib.cut "#" rest) as [u1 fragment].
    destruct (Urllib.cut "?" u1) as [u2 query]. cbn [rbind].
    by repeat case_match.
Qed.

Section Parsers.
Context `{Unquote}.
Import DownloadExternalLora Urllib.

Lemma extract_parts_four (url : string) (segs : list string) :
  url_path_segments url = Return segs →
  length segs = 4%nat →
  extract_parts_from_huggingface_url url
  = Raise (IndexError "list index out of range").
Proof.
  intros (pr & Hp & ->)%url_path_segments_inv Hlen.
  unfold extract_parts_from_huggingface_url, path_segments in *.
  rewrite Hp. cbn [rbind].
  destruct (split_parts "/" (path pr)) as [w Hw]. rewrite Hw.
  destruct (tail (Str.split "/" (path pr))) as [|a [|b [|c [|d [|? ?]]]]];
    simpl in Hlen; try lia.
  reflexivity.
Qed.

(** The parse of a HuggingFace URL by the number of its path segments:
    fewer than four raise the [ValueError] of the guard, exactly four pass
    the guard and raise [IndexError], five or more return; a URL that
    [urlparse] refuses raises the error of [urlparse]. *)
Theorem huggingface_parse_outcomes (url : string) :
  (∀ segs,
     url_path_segments url = Return segs →
     ((length segs < 4)%nat →
      extract_parts_from_huggingface_url url = Raise (MalformedUrl url))
     ∧ (length segs = 4%nat →
        extract_parts_from_huggingface_url url
        = Raise (IndexError "list index out of range"))
     ∧ ((5 ≤ length segs)%nat →
        ∃ repo_id revision original,
          extract_parts_from_huggingface_url url
          = Return (repo_id, revision, drop 4 segs, original)))
  ∧ (∀ e, urlparse url = Raise e →
          extract_parts_from_huggingface_url url
          = Raise (ValueError "Invalid IPv6 URL")).
Proof.
  split.
  - intros segs Hsegs. split_and!.
    + by apply extract_parts_guard.
    + by apply extract_parts_four.
    + intros Hlen.
      destruct (extract_parts_enough url segs Hsegs Hlen)
        as (owner & name & revision & original & _ & _ & _ & _ & _ & _ & Hx).
      by eexists _, _, _.
  - intros e He. unfold extract_parts_from_huggingface_url. rewrite He.
    by rewrite (urlparse_raises _ _ He).
Qed.

(** What a returned parse is made of. *)
Lemma extract_parts_inv (url repo_id revision original : string)
    (filename_and_path : list string) :
  extract_parts_from_huggingface_url url
  = Return (repo_id, revision, filename_and_path, original) →
  ∃ segs owner name,
    url_path_segments url = Return segs
    ∧ (5 ≤ length segs)%nat
    ∧ segment 1 segs = Some owner ∧ segment 2 segs = Some name
    ∧ segment 4 segs = Some revision ∧ last segs = Some original
    ∧ Str.contains "/" owner = false ∧ Str.contains "/" name = false
    ∧ Str.contains "/" original = false
    ∧ repo_id = owner +:+ "/" +:+ name
    ∧ filename_and_path = drop 4 segs.
Proof.
  intros Hx. unfold url_path_segments.
  destruct (urlparse url) as [pr|e] eqn:Hp;
    [|by unfold extract_parts_from_huggingface_url in Hx; rewrite Hp in Hx].
  cbn [rbind]. exists (path_segments (path pr)).
  assert (Hsegs : url_path_segments url = Return (path_segments (path pr)))
    by (unfold url_path_segments; by rewrite Hp).
  destruct (decide (length (path_segments (path pr)) < 4)%nat) as [Hlt|Hge].
  { by rewrite (extract_parts_guard _ _ Hsegs Hlt) in Hx. }
  destruct (decide (length (path_segments (path pr)) = 4)%nat) as [Heq|Hne].
  { by rewrite (extract_parts_four _ _ Hsegs Heq) in Hx. }
  assert (Hlen : (5 ≤ length (path_segments (path pr)))%nat) by lia.
  destruct (extract_parts_enough url _ Hsegs Hlen)
    as (owner & name & rev & orig & H1 & H2 & H4 & Hl & Ho & Hn & Hx').
  rewrite Hx' in Hx. simplify_eq.
  exists owner, name. split_and!; try done.
  pose proof (split_no_sep "/" (path pr)) as Hsep.
  destruct (split_parts "/" (path pr)) as [w Hw]. rewrite Hw in Hsep.
  apply Forall_cons in Hsep as [_ Hsep]. fold (path_segments (path pr)) in Hsep.
  rewrite Forall_forall in Hsep. apply Hsep.
  rewrite last_lookup in Hl. by eapply list_elem_of_lookup_2.
Qed.

Lemma contains_replace (a b c : ascii) (s : string) :
  b ≠ c → Str.contains c s = false →
  Str.contains c (Str.replace a b s) = false.
Proof.
  intros Hbc. induction s as [|x s IH]; [done|]. simpl.
  intros [Hx Hs]%orb_false_iff. rewrite (IH Hs), orb_false_r.
  destruct (Ascii.eqb x a); [by apply Ascii.eqb_neq|done].
Qed.

Lemma dest_path_inside (f : string) :
  Str.startswith f "/" = false →
  dest_path f = "ComfyUI/models/loras/" +:+ f.
Proof.
  intros Hf. unfold dest_path, Os.path_join. rewrite Hf.
  by rewrite <- append_assoc.
Qed.

Lemma no_slash_not_rooted (f : string) :
  Str.contains "/" f = false → Str.startswith f "/" = false.
Proof.
  destruct f as [|a f]; [done|]. cbn [Str.contains Str.startswith].
  intros [Ha _]%orb_false_iff. by rewrite Ascii.eqb_sym, Ha.
Qed.

(** The names derived for HuggingFace and Replicate URLs hold no ['/'], so
    the destination is a file directly inside the LoRA directory: these two
    paths cannot be led out of it by the URL. *)
Theorem huggingface_replicate_names_flat (url f : string) :
  (∀ E w w', download_from_huggingface E url w = (w', Return f) →
             Str.contains "/" f = false
             ∧ dest_path f = "ComfyUI/models/loras/" +:+ f)
  ∧ (get_replicate_filename url = Return f →
     Str.contains "/" f = false
     ∧ dest_path f = "ComfyUI/models/loras/" +:+ f).
Proof.
  assert (Hflat : Str.contains "/" f = false →
                  Str.contains "/" f = false
                  ∧ dest_path f = "ComfyUI/models/loras/" +:+ f).
  { intros Hf. split; [done|]. by apply dest_path_inside, no_slash_not_rooted. }
  split.
  - intros E w w' (r & v & fp & o & Hx & ->)%huggingface_returns.
    apply Hflat.
    apply extract_parts_inv
      in Hx as (segs & owner & name & _ & _ & _ & _ & _ & _ & Ho & Hn & Horig & -> & _).
    unfold huggingface_filename.
    rewrite repo_id_flat by done.
    by rewrite !contains_app, Ho, Hn, Horig.
  - unfold get_replicate_filename. intros Hf.
    apply rbind_inv in Hf as (field & Hfield & Hf). simplify_eq.
    apply Hflat. rewrite !contains_app.
    enough (Str.contains "/" field = false) as -> by done.
    pose proof (split_no_sep "/" url) as Hsep. rewrite Forall_forall in Hsep.
    apply Hsep. unfold PyList.get_neg in Hfield.
    case_match; [done|]. apply get_inv in Hfield.
    by eapply list_elem_of_lookup_2.
Qed.

(** [get_replicate_filename] returns exactly when the URL holds a ['/'];
    without one it raises [IndexError].  The field it uses holds no
    ['/']. *)
Theorem replicate_filename_outcomes (url : string) :
  (Str.contains "/" url = true →
   ∃ field,
     get_replicate_filename url
     = Return ("replicate_lora_" +:+ field +:+ ".safetensors")
     ∧ Str.contains "/" field = false)
  ∧ (Str.contains "/" url = false →
     get_replicate_filename url = Raise (IndexError "list index out of range")).
Proof.
  split.
  - intros [k Hk]%find_present.
    destruct (find_split _ _ _ Hk) as (r & _ & Hsplit).
    destruct (split_parts "/" r) as [w Hw].
    unfold get_replicate_filename.
    destruct (get_neg_total (Str.split "/" url) 2) as [field Hfield].
    { rewrite Hsplit, Hw. simpl. lia. }
    exists field. rewrite Hfield. split; [done|].
    pose proof (split_no_sep "/" url) as Hsep. rewrite Forall_forall in Hsep.
    apply Hsep. unfold PyList.get_neg in Hfield.
    case_match; [done|]. apply get_inv in Hfield.
    by eapply list_elem_of_lookup_2.
  - intros Habs. unfold get_replicate_filename.
    by rewrite (split_absent _ _ Habs).
Qed.

(** [get_civitai_filename] raises nothing but the [ValueError] of
    [urlparse]: its list accesses are always in range.  A name it returns
    starts with [civitai_] and ends with [.safetensors]. *)
Theorem civitai_filename_outcomes (url : string) :
  (∀ e, get_civitai_filename url = Raise e → e = ValueError "Invalid IPv6 URL")
  ∧ (∀ f, get_civitai_filename url = Return f →
          ∃ stem, f = "civitai_" +:+ stem +:+ ".safetensors").
Proof.
  unfold get_civitai_filename.
  destruct (urlparse url) as [pr|e0] eqn:Hp; cbn [rbind].
  - destruct (split_parts "/" (path pr)) as [w Hw].
    destruct (last (Str.split "/" (path pr))) as [model_id|] eqn:Hlast;
      [|rewrite Hw in Hlast; by apply last_None in Hlast].
    rewrite (get_neg_last _ _ Hlast). cbn [rbind].
    rewrite for_each_fields. cbn [rbind]. rewrite join_fields by done.
    split; [done|]. intros f [= <-]. cbn [Str.join].
    exists (model_id
            +:+ civitai_suffix (parse_qs (query pr)) "type"
            +:+ civitai_suffix (parse_qs (query pr)) "format"
            +:+ civitai_suffix (parse_qs (query pr)) "size"
            +:+ civitai_suffix (parse_qs (query pr)) "fp").
    by rewrite !append_assoc.
  - split; [|done]. intros e [= <-]. by apply urlparse_raises in Hp.
Qed.

End Parsers.

(** ** What the provider paths do to the file system *)

Section Effects.
Context `{Unquote}.
Import DownloadExternalLora.

Lemma replicate_paths (url f : string) :
  get_replicate_filename url = Return f →
  scratch_path f = "TEMP_HF/" +:+ f
  ∧ dest_path f = "ComfyUI/models/loras/" +:+ f
  ∧ scratch_path f ≠ dest_path f.
Proof.
  unfold get_replicate_filename. intros Hf.
  apply rbind_inv in Hf as (field & _ & Hf). simplify_eq.
  split_and!; [done..|]. discriminate.
Qed.

Lemma download_replicate (E : Externals) (url : string) (w : world) :
  Str.startswith url "https://replicate.delivery" = true →
  download E url w = download_from_replicate E url w.
Proof.
  intros Hpre. unfold download.
  pose proof (prefixes_exclusive url) as Hex.
  unfold provider_prefixes in Hex. rewrite !filter_cons, filter_nil in Hex.
  rewrite Hpre in *.
  destruct (Str.startswith url "https://huggingface.co");
    destruct (Str.startswith url "https://civitai.com"); try done;
    repeat case_decide; simpl in Hex; try lia; congruence.
Qed.

(** [download_from_replicate] on a cache miss, by what the fast-fetch
    left and what the archive holds. *)
Lemma replicate_cache_miss (E : Externals) (url : string) (w : world)
    (f : string) (files : gmap string string) (outcome : proc_outcome) :
  get_replicate_filename url = Return f →
  fs w !! dest_path f = None →
  run_process E ["pget"; "-f"; url; scratch_path f] 600 (fs w) = (files, outcome) →
  download_from_replicate E url w
  = let cmd := ["pget"; "-f"; url; scratch_path f] in
    let w1 := {| fs := files; calls := calls w ++ [Subprocess cmd 600] |} in
    match outcome with
    | TimedOut => (w1, Raise (TimeoutExpired cmd 600))
    | LaunchFailed msg => (w1, Raise (OSError msg))
    | Exited _ =>
        match files !! scratch_path f with
        | None => (w1, Raise (OSError "No such file or directory"))
        | Some bytes =>
            match tar_members E bytes with
            | Raise e => (w1, Raise e)
            | Return tar =>
                match tar !! lora_entry with
                | None =>
                    (w1, Raise (KeyError ("filename '" +:+ lora_entry
                                          +:+ "' not found")))
                | Some TarNoData => (w1, Raise ArchiveEntryMissing)
                | Some (TarData data) =>
                    ({| fs := delete (scratch_path f)
                                (<[dest_path f := data]> files);
                        calls := calls w ++ [Subprocess cmd 600] |},
                     Return f)
                end
            end
        end
    end.
Proof.
  intros Hf Hmiss Hrun.
  destruct (replicate_paths url f Hf) as (_ & _ & Hne).
  unfold download_from_replicate. run_monad.
  rewrite Hf. fold (dest_path f) (scratch_path f).
  rewrite bool_decide_eq_false_2 by (rewrite Hmiss; by intros [? ?]).
  rewrite Hrun. cbv zeta.
  destruct outcome as [returncode| |msg]; [|done..]. cbn [fs calls].
  destruct (files !! scratch_path f) as [bytes|] eqn:Hs; [|done].
  destruct (tar_members E bytes) as [tar|e]; [|done].
  unfold extractfile. fold lora_entry.
  destruct (tar !! lora_entry) as [[data|]|]; [|done..].
  unfold ret. cbn [fs calls].
  by rewrite lookup_insert_ne, Hs by done.
Qed.

(** A Replicate fetch that finds the LoRA entry, on a cache miss: the call
    returns the name whatever the exit status of the fast-fetch was; the
    destination holds the bytes of the entry, the scratch archive is gone,
    every other file is as the fast-fetch left it, and one subprocess was
    started. *)
Theorem replicate_fetch_success (E : Externals) (url : string) (w : world)
    (f : string) (files : gmap string string) (returncode : Z)
    (bytes data : string) (tar : gmap string tar_member) :
  get_replicate_filename url = Return f →
  fs w !! dest_path f = None →
  run_process E ["pget"; "-f"; url; scratch_path f] 600 (fs w)
  = (files, Exited returncode) →
  files !! scratch_path f = Some bytes →
  tar_members E bytes = Return tar →
  tar !! lora_entry = Some (TarData data) →
  ∃ w',
    download_from_replicate E url w = (w', Return f)
    ∧ fs w' !! dest_path f = Some data
    ∧ fs w' !! scratch_path f = None
    ∧ (∀ p, p ≠ dest_path f → p ≠ scratch_path f → fs w' !! p = files !! p)
    ∧ calls w' = calls w ++ [Subprocess ["pget"; "-f"; url; scratch_path f] 600].
Proof.
  intros Hf Hmiss Hrun Hs Ht He.
  destruct (replicate_paths url f Hf) as (_ & _ & Hne).
  rewrite (replicate_cache_miss E url w f files _ Hf Hmiss Hrun).
  cbv zeta. rewrite Hs, Ht, He. eexists. split; [done|]. cbn [fs calls].
  split_and!; [| |intros p Hp1 Hp2|done].
  - by rewrite lookup_delete_ne, lookup_insert_eq.
  - by rewrite lookup_delete_eq.
  - by rewrite lookup_delete_ne, lookup_insert_ne.
Qed.

(** A Replicate fetch that fails after the fast-fetch ran (no archive at
    the scratch path, an archive the reader refuses, an entry that is
    missing or has no data): the error is raised and the file system is
    the one the fast-fetch left.  The scratch file is not removed and the
    destination is not written. *)
Theorem replicate_failure_keeps_files (E : Externals) (url : string) (w : world)
    (f : string) (files : gmap string string) (returncode : Z) :
  get_replicate_filename url = Return f →
  fs w !! dest_path f = None →
  run_process E ["pget"; "-f"; url; scratch_path f] 600 (fs w)
  = (files, Exited returncode) →
  let w1 := {| fs := files;
               calls := calls w
                        ++ [Subprocess ["pget"; "-f"; url; scratch_path f] 600] |} in
  (files !! scratch_path f = None →
   download_from_replicate E url w
   = (w1, Raise (OSError "No such file or directory")))
  ∧ (∀ bytes e,
       files !! scratch_path f = Some bytes → tar_members E bytes = Raise e →
       download_from_replicate E url w = (w1, Raise e))
  ∧ (∀ bytes tar,
       files !! scratch_path f = Some bytes → tar_members E bytes = Return tar →
       (tar !! lora_entry = None →
        download_from_replicate E url w
        = (w1, Raise (KeyError ("filename '" +:+ lora_entry +:+ "' not found"))))
       ∧ (tar !! lora_entry = Some TarNoData →
          download_from_replicate E url w = (w1, Raise ArchiveEntryMissing))).
Proof.
  intros Hf Hmiss Hrun w1.
  rewrite (replicate_cache_miss E url w f files _ Hf Hmiss Hrun). cbv zeta.
  split_and!.
  - by intros ->.
  - by intros bytes e -> ->.
  - intros bytes tar -> ->. split; by intros ->.
Qed.

(** [download_from_huggingface] on a cache miss, by what the client did. *)
Lemma huggingface_cache_miss (E : Externals) (url : string) (w : world)
    (repo_id revision original : string) (filename_and_path : list string)
    (files : gmap string string) (downloaded : result string) :
  extract_parts_from_huggingface_url url
  = Return (repo_id, revision, filename_and_path, original) →
  fs w !! dest_path (huggingface_filename repo_id original) = None →
  hub_download E repo_id revision (Str.join "/" filename_and_path) HF_TEMP_DIR (fs w)
  = (files, downloaded) →
  download_from_huggingface E url w
  = let f := huggingface_filename repo_id original in
    let log := calls w ++ [HfHubDownload repo_id revision
                             (Str.join "/" filename_and_path) HF_TEMP_DIR] in
    match downloaded with
    | Raise e => ({| fs := files; calls := log |}, Raise e)
    | Return file_path =>
        match files !! file_path with
        | Some data =>
            ({| fs := <[dest_path f := data]> (delete file_path files);
                calls := log |}, Return f)
        | None =>
            ({| fs := files; calls := log |},
             Raise (OSError "No such file or directory"))
        end
    end.
Proof.
  intros Hx Hmiss Hhub. unfold download_from_huggingface. run_monad.
  rewrite Hx. fold (dest_path (huggingface_filename repo_id original)).
  rewrite bool_decide_eq_false_2 by (rewrite Hmiss; by intros [? ?]).
  rewrite Hhub. cbv zeta. destruct downloaded as [file_path|e]; [|done].
  unfold ret. cbn [fs calls]. by destruct (files !! file_path).
Qed.

(** A HuggingFace fetch on a cache miss.  The client is called once, with
    the repository, the revision, the remote path joined by ['/'] and the
    staging directory.  Its error is raised as it is, and the code changes
    no file.  When it returns the path of a file, that file is moved: the
    destination holds its bytes, the staging path is gone, every other file
    is as the client left it. *)
Theorem huggingface_fetch (E : Externals) (url : string) (w : world)
    (repo_id revision original : string) (filename_and_path : list string)
    (files : gmap string string) (downloaded : result string) :
  extract_parts_from_huggingface_url url
  = Return (repo_id, revision, filename_and_path, original) →
  fs w !! dest_path (huggingface_filename repo_id original) = None →
  hub_download E repo_id revision (Str.join "/" filename_and_path) HF_TEMP_DIR (fs w)
  = (files, downloaded) →
  let f := huggingface_filename repo_id original in
  let log := calls w ++ [HfHubDownload repo_id revision
                           (Str.join "/" filename_and_path) HF_TEMP_DIR] in
  (∀ e, downloaded = Raise e →
        download_from_huggingface E url w
        = ({| fs := files; calls := log |}, Raise e))
  ∧ (∀ file_path data,
       downloaded = Return file_path → files !! file_path = Some data →
       ∃ w',
         download_from_huggingface E url w = (w', Return f)
         ∧ fs w' !! dest_path f = Some data
         ∧ (file_path ≠ dest_path f → fs w' !! file_path = None)
         ∧ (∀ p, p ≠ dest_path f → p ≠ file_path → fs w' !! p = files !! p)
         ∧ calls w' = log)
  ∧ (∀ file_path,
       downloaded = Return file_path → files !! file_path = None →
       download_from_huggingface E url w
       = ({| fs := files; calls := log |},
          Raise (OSError "No such file or directory"))).
Proof.
  intros Hx Hmiss Hhub f log.
  rewrite (huggingface_cache_miss E url w _ _ _ _ files downloaded Hx Hmiss Hhub).
  cbv zeta. fold f log. split_and!.
  - by intros e ->.
  - intros file_path data -> ->. eexists. split; [done|]. cbn [fs calls].
    split_and!; [|intros Hne|intros p Hp1 Hp2|done].
    + by rewrite lookup_insert_eq.
    + by rewrite lookup_insert_ne, lookup_delete_eq.
    + by rewrite lookup_insert_ne, lookup_delete_ne.
  - by intros file_path -> ->.
Qed.

Lemma huggingface_success_file (E : Externals) (url : string) (w w' : world)
    (f : string) :
  download_from_huggingface E url w = (w', Return f) →
  is_Some (fs w' !! dest_path f).
Proof.
  intros Hd. pose proof Hd as (r & v & fp & o & Hx & ->)%huggingface_returns.
  destruct (fs w !! dest_path (huggingface_filename r o)) as [old|] eqn:Hold.
  - rewrite (huggingface_cache_hit E url w r v fp o Hx) in Hd by by eexists.
    injection Hd as <-. by eexists.
  - destruct (hub_download E r v (Str.join "/" fp) HF_TEMP_DIR (fs w))
      as [files downloaded] eqn:Hhub.
    rewrite (huggingface_cache_miss E url w _ _ _ _ files downloaded Hx Hold Hhub)
      in Hd.
    cbv zeta in Hd. destruct downloaded as [file_path|e]; [|done].
    destruct (files !! file_path) as [data|]; [|done].
    injection Hd as <-. cbn [fs]. rewrite lookup_insert_eq. by eexists.
Qed.

Lemma replicate_success_file (E : Externals) (url : string) (w w' : world)
    (f : string) :
  download_from_replicate E url w = (w', Return f) →
  is_Some (fs w' !! dest_path f).
Proof.
  intros Hd. pose proof Hd as Hf%replicate_returns.
  destruct (replicate_paths url f Hf) as (_ & _ & Hne).
  destruct (fs w !! dest_path f) as [old|] eqn:Hold.
  - rewrite (replicate_cache_hit E url w f Hf) in Hd by by eexists.
    injection Hd as <-. by eexists.
  - destruct (run_process E ["pget"; "-f"; url; scratch_path f] 600 (fs w))
      as [files outcome] eqn:Hrun.
    rewrite (replicate_cache_miss E url w f files outcome Hf Hold Hrun) in Hd.
    cbv zeta in Hd. destruct outcome; [|done..].
    destruct (files !! scratch_path f) as [bytes|]; [|done].
    destruct (tar_members E bytes) as [tar|]; [|done].
    destruct (tar !! lora_entry) as [[data|]|]; [|done..].
    injection Hd as <-. cbn [fs].
    rewrite lookup_delete_ne, lookup_insert_eq by done. by eexists.
Qed.

(** The local name of a HuggingFace file depends on the owner, the name of
    the repository and the last path segment only: two URLs that differ in
    the revision, in segment 3 or in the directories of the remote path
    derive the same name, so the file fetched for one of them is a cache
    hit for the other, whatever the collaborators. *)
Theorem huggingface_names_collide (url1 url2 : string) (segs1 segs2 : list string) :
  url_path_segments url1 = Return segs1 →
  url_path_segments url2 = Return segs2 →
  (5 ≤ length segs1)%nat → (5 ≤ length segs2)%nat →
  segment 1 segs1 = segment 1 segs2 →
  segment 2 segs1 = segment 2 segs2 →
  last segs1 = last segs2 →
  ∀ E1 E2 w w' f,
    download_from_huggingface E1 url1 w = (w', Return f) →
    download_from_huggingface E2 url2 w' = (w', Return f).
Proof.
  intros Hs1 Hs2 Hl1 Hl2 Hseg1 Hseg2 Hlast E1 E2 w w' f Hd.
  pose proof (huggingface_success_file _ _ _ _ _ Hd) as Hfile.
  destruct (extract_parts_enough url1 segs1 Hs1 Hl1)
    as (o1 & n1 & r1 & f1 & Ha1 & Hb1 & _ & Hc1 & _ & _ & Hx1).
  destruct (extract_parts_enough url2 segs2 Hs2 Hl2)
    as (o2 & n2 & r2 & f2 & Ha2 & Hb2 & _ & Hc2 & _ & _ & Hx2).
  assert (o1 = o2) by congruence. assert (n1 = n2) by congruence.
  assert (f1 = f2) by congruence. subst o2 n2 f2.
  apply huggingface_returns in Hd as (r & v & fp & o & Hx & ->).
  rewrite Hx1 in Hx. injection Hx as <- <- <- <-.
  by eapply huggingface_cache_hit.
Qed.

(** A HuggingFace or Replicate URL is fetched once: after a call of
    [download] that returned, every further call on the same URL returns
    the same name and leaves the world as it is, whatever the collaborators
    would do (they are not called). *)
Theorem download_again_is_cache_hit (E E' : Externals) (url : string)
    (w w' : world) (f : string) :
  Str.startswith url "https://huggingface.co" = true
  ∨ Str.startswith url "https://replicate.delivery" = true →
  download E url w = (w', Return f) →
  download E' url w' = (w', Return f).
Proof.
  intros [Hpre|Hpre] Hd.
  - unfold download in *. rewrite Hpre in *.
    pose proof (huggingface_success_file _ _ _ _ _ Hd) as Hfile.
    apply huggingface_returns in Hd as (r & v & fp & o & Hx & ->).
    by eapply huggingface_cache_hit.
  - rewrite download_replicate in * by done.
    pose proof (replicate_success_file _ _ _ _ _ Hd) as Hfile.
    apply replicate_returns in Hd. by apply replicate_cache_hit.
Qed.

(** The Civitai path trusts the exit status: on a cache miss, a fast-fetch
    that exits with status 0 makes the call return the name, whether or
    not a file is at the destination.  When there is none, the next call
    is a miss again and starts the fast-fetch once more. *)
Theorem civitai_trusts_exit_status (E E' : Externals) (url : string) (w : world)
    (f : string) (files : gmap string string) :
  get_civitai_filename url = Return f →
  fs w !! dest_path f = None →
  run_process E ["pget"; "-f"; url; dest_path f] 600 (fs w) = (files, Exited 0) →
  let cmd := ["pget"; "-f"; url; dest_path f] in
  let w1 := {| fs := files; calls := calls w ++ [Subprocess cmd 600] |} in
  download_from_civitai E url w = (w1, Return f)
  ∧ (is_Some (files !! dest_path f) →
     download_from_civitai E' url w1 = (w1, Return f))
  ∧ (files !! dest_path f = None →
     calls (download_from_civitai E' url w1).1 = calls w1 ++ [Subprocess cmd 600]).
Proof.
  intros Hf Hmiss Hrun cmd w1. split_and!.
  - by rewrite (civitai_cache_miss E url w f files _ Hf Hmiss Hrun).
  - intros Hfile. by apply civitai_cache_hit.
  - intros Hnone.
    destruct (run_process E' cmd 600 files) as [files' outcome'] eqn:Hrun'.
    by rewrite (civitai_cache_miss E' url w1 f files' outcome' Hf Hnone Hrun').
Qed.

End Effects.

(** * Further properties of the workflow configurator *)

Section Configurator.
Import Predictor.

Lemma assign_has_inputs_back (workflow : json) (ref key : string)
    (value workflow' : json) (node : string) :
  assign workflow ref key value = Return workflow' →
  has_inputs workflow' node → has_inputs workflow node.
Proof.
  intros (m & n & i & -> & Hm & Hn & ->)%assign_inv (m' & n' & i' & Heq & Hm' & Hn').
  simplify_eq. destruct (decide (ref = node)) as [->|Hne].
  - by eexists _, _, _.
  - rewrite lookup_insert_ne in Hm' by done. by eexists _, _, _.
Qed.

Lemma assign_target (workflow : json) (ref key : string) (value workflow' : json) :
  assign workflow ref key value = Return workflow' → has_inputs workflow ref.
Proof.
  intros (m & n & i & -> & Hm & Hn & ->)%assign_inv. by eexists _, _, _.
Qed.

Lemma assign_node_key (workflow : json) (ref key : string) (value workflow' : json)
    (node k : string) :
  assign workflow ref key value = Return workflow' →
  k ≠ "inputs" →
  node_key workflow' node k = node_key workflow node k.
Proof.
  intros (m & n & i & -> & Hm & Hn & ->)%assign_inv Hk.
  unfold node_key, getitem.
  destruct (decide (ref = node)) as [->|Hnode].
  - rewrite lookup_insert_eq, Hm. cbn [rbind]. by rewrite lookup_insert_ne.
  - by rewrite lookup_insert_ne.
Qed.

Lemma assign_getitem (workflow : json) (ref key : string) (value workflow' : json)
    (node : string) :
  assign workflow ref key value = Return workflow' →
  ref ≠ node →
  getitem workflow' node = getitem workflow node.
Proof.
  intros (m & n & i & -> & Hm & Hn & ->)%assign_inv Hne.
  unfold getitem. by rewrite lookup_insert_ne.
Qed.

Lemma dict_lookup_inv (d : list (string * string)) (k v : string) :
  dict_lookup d k = Return v → k ∈ d.*1.
Proof.
  unfold dict_lookup.
  destruct ((list_to_map d : gmap string string) !! k) as [v'|] eqn:Hv; [|done].
  intros _. apply elem_of_list_to_map_2 in Hv.
  apply list_elem_of_fmap. by exists (k, v').
Qed.

#[local] Opaque assign inputs_of.

(** The assignments of a call that returned, one after the other. *)
Ltac invert_update Hu :=
  unfold predict_workflow, update_workflow in Hu;
  cbn [prompt negative_prompt control_type control_image_filename
       control_strength guidance_scale steps soft_edge_preprocessor
       depth_preprocessor image_to_image_strength seed] in Hu;
  repeat (apply rbind_inv in Hu as (? & ? & Hu));
  repeat match goal with
         | Hi : inputs_of _ _ = Return _ |- _ => apply inputs_of_inv in Hi; subst
         end.

Ltac read_field :=
  repeat match goal with
         | Ha : assign ?w ?r ?k ?v = Return ?w' |- input_field ?w' _ _ = _ =>
             first [ rewrite (assign_same _ _ _ _ _ Ha); reflexivity
                   | rewrite (assign_other _ _ _ _ _ _ _ Ha) by (by intros [=]) ]
         end.

(** Every field that [update_workflow] assigns, in the document that
    [predict] hands on: both prompt texts of node 53 are the prompt, the
    image of node 16 is the stored control image, the sampler of node 3 has
    the steps, the generated seed under [seed] and under [noise_seed], and
    the guidance scale under [true_gs]; node 13 names the weights of the
    control type and node 51 the preprocessor of the selected label.  For
    the control type canny the preprocessor is the Canny one, whatever the
    two preprocessor inputs say. *)
Theorem workflow_written_fields (workflow : json) (a : predict_args)
    (generated_seed : Z) (image : option string) (workflow' : json) :
  predict_workflow workflow a generated_seed image = Return workflow' →
  input_field workflow' "53" "clip_l" = Return (JStr (arg_prompt a))
  ∧ input_field workflow' "53" "t5xxl" = Return (JStr (arg_prompt a))
  ∧ input_field workflow' "16" "image" = Return (json_of_option image)
  ∧ input_field workflow' "14" "strength" = Return (JFloat (arg_control_strength a))
  ∧ input_field workflow' "3" "steps" = Return (JInt (arg_steps a))
  ∧ input_field workflow' "3" "noise_seed" = Return (JInt generated_seed)
  ∧ input_field workflow' "3" "seed" = Return (JInt generated_seed)
  ∧ input_field workflow' "3" "true_gs" = Return (JFloat (arg_guidance_scale a))
  ∧ input_field workflow' "3" "image_to_image_strength"
    = Return (JFloat (arg_image_to_image_strength a))
  ∧ (∃ weights,
       control_weights_map (arg_control_type a) = Return weights
       ∧ input_field workflow' "13" "controlnet_path" = Return (JStr weights))
  ∧ (∃ label,
       preprocessor_map (selected_preprocessor a) = Return label
       ∧ input_field workflow' "51" "preprocessor" = Return (JStr label))
  ∧ (arg_control_type a = "canny" →
     input_field workflow' "51" "preprocessor"
     = Return (JStr "CannyEdgePreprocessor")
     ∧ input_field workflow' "13" "controlnet_path"
       = Return (JStr "flux-canny-controlnet-v3.safetensors")).
Proof.
  intros Hu. invert_update Hu.
  match goal with
  | Hw : control_weights_map _ = Return ?weights,
    Hl : preprocessor_map _ = Return ?label |- _ =>
      fold (selected_preprocessor a) in Hl;
      assert (Hcanny : arg_control_type a = "canny" →
                       label = "CannyEdgePreprocessor"
                       ∧ weights = "flux-canny-controlnet-v3.safetensors")
        by (intros Hc; unfold selected_preprocessor in Hl; rewrite Hc in Hl, Hw;
            vm_compute in Hl, Hw; by simplify_eq)
  end.
  split_and!; try (by read_field).
  - eexists. split; [eassumption|]. by read_field.
  - eexists. split; [eassumption|]. by read_field.
  - intros Hc. destruct (Hcanny Hc) as [-> ->]. split; by read_field.
Qed.

(** [update_workflow] changes nothing else: a field of the inputs that is
    not one of the fifteen it assigns, a key of a node other than
    ["inputs"], and a node it does not write to are, in the document handed
    on, what they were in the template. *)
Theorem workflow_frame (workflow : json) (a : predict_args)
    (generated_seed : Z) (image : option string) (workflow' : json) :
  predict_workflow workflow a generated_seed image = Return workflow' →
  (∀ node field, (node, field) ∉ written_fields →
                 input_field workflow' node field = input_field workflow node field)
  ∧ (∀ node key, key ≠ "inputs" →
                 node_key workflow' node key = node_key workflow node key)
  ∧ (∀ node, node ∉ workflow_nodes →
             getitem workflow' node = getitem workflow node).
Proof.
  intros Hu. invert_update Hu. split_and!.
  - intros node field Hnot.
    repeat match goal with
           | Ha : assign ?w ?r ?k ?v = Return ?w' |- input_field ?w' _ _ = _ =>
               rewrite (assign_other _ _ _ _ _ node field Ha);
               [clear Ha
               |intros Heq; apply Hnot; rewrite <- Heq; unfold written_fields;
                repeat first [apply list_elem_of_here | apply list_elem_of_further]]
           end.
    reflexivity.
  - intros node key Hkey.
    repeat match goal with
           | Ha : assign ?w ?r ?k ?v = Return ?w' |- node_key ?w' _ _ = _ =>
               rewrite (assign_node_key _ _ _ _ _ node key Ha Hkey); clear Ha
           end.
    reflexivity.
  - intros node Hnot.
    repeat match goal with
           | Ha : assign ?w ?r ?k ?v = Return ?w' |- getitem ?w' _ = _ =>
               rewrite (assign_getitem _ _ _ _ _ node Ha);
               [clear Ha
               |intros Heq; apply Hnot; rewrite <- Heq; unfold workflow_nodes;
                repeat first [apply list_elem_of_here | apply list_elem_of_further]]
           end.
    reflexivity.
Qed.

Lemma workflow_requirements (workflow : json) (a : predict_args)
    (generated_seed : Z) (image : option string) (workflow' : json) :
  predict_workflow workflow a generated_seed image = Return workflow' →
  Forall (has_inputs workflow) workflow_nodes
  ∧ arg_control_type a ∈ ["canny"; "soft_edge"; "depth"]
  ∧ selected_preprocessor a ∈ preprocessor_labels.
Proof.
  intros Hu. invert_update Hu.
  match goal with
  | Hw : control_weights_map _ = Return _,
    Hl : preprocessor_map _ = Return _ |- _ =>
      apply dict_lookup_inv in Hw; apply dict_lookup_inv in Hl
  end.
  split_and!; [|assumption|assumption].
  unfold workflow_nodes.
  repeat constructor;
    match goal with
    | |- has_inputs _ ?n =>
        match goal with
        | Ha : assign ?w n _ _ = Return _ |- _ =>
            let Hh := fresh "Hh" in
            pose proof (assign_target _ _ _ _ _ Ha) as Hh;
            repeat match goal with
                   | Hb : assign ?w0 _ _ _ = Return ?w1, Hh' : has_inputs ?w1 n |- _ =>
                       apply (assign_has_inputs_back _ _ _ _ _ _ Hb) in Hh'
                   end;
            exact Hh
        end
    end.
Qed.

#[local] Transparent assign inputs_of.

Ltac assign_next :=
  match goal with
  | Hall : Forall (has_inputs ?w) workflow_nodes
    |- context [inputs_of ?w ?node] =>
      rewrite (inputs_of_total w node)
        by (rewrite Forall_forall in Hall; apply Hall; repeat constructor);
      cbn [rbind]
  | Hall : Forall (has_inputs ?w) workflow_nodes
    |- context [assign ?w ?ref ?key ?value] =>
      let w' := fresh "workflow" in
      let Hw := fresh "Hassign" in
      destruct (assign_total w ref key value) as [w' Hw];
      [rewrite Forall_forall in Hall; apply Hall; repeat constructor|];
      rewrite Hw; cbn [rbind];
      let Hall' := fresh "Hall" in
      assert (Hall' : Forall (has_inputs w') workflow_nodes)
        by (eapply Forall_impl; [exact Hall|];
            intros ? ?; by eapply assign_has_inputs);
      clear Hall Hw
  end.

Lemma workflow_sufficient (workflow : json) (a : predict_args)
    (generated_seed : Z) (image : option string) :
  Forall (has_inputs workflow) workflow_nodes →
  arg_control_type a ∈ ["canny"; "soft_edge"; "depth"] →
  selected_preprocessor a ∈ preprocessor_labels →
  ∃ workflow', predict_workflow workflow a generated_seed image = Return workflow'.
Proof.
  intros Hall Hct Hlabel.
  destruct (control_weights_known (arg_control_type a) Hct) as [weights Hweights].
  destruct (dict_lookup_total
              [("Canny", "CannyEdgePreprocessor");
               ("Midas", "MiDaS-DepthMapPreprocessor");
               ("Zoe", "Zoe-DepthMapPreprocessor");
               ("DepthAnything", "DepthAnythingPreprocessor");
               ("Zoe-DepthAnything", "Zoe_DepthAnythingPreprocessor");
               ("HED", "HEDPreprocessor");
               ("TEED", "TEEDPreprocessor");
               ("PiDiNet", "PiDiNetPreprocessor")]
              (selected_preprocessor a) Hlabel) as [label Hl].
  fold (preprocessor_map (selected_preprocessor a)) in Hl.
  unfold selected_preprocessor in Hl.
  unfold predict_workflow, update_workflow.
  cbn [prompt negative_prompt control_type control_image_filename control_strength
       guidance_scale steps soft_edge_preprocessor depth_preprocessor
       image_to_image_strength seed].
  do 19 assign_next.
  rewrite Hweights. cbn [rbind]. do 2 assign_next.
  rewrite Hl. cbn [rbind].
  match goal with
  | Hall : Forall (has_inputs ?w) workflow_nodes |- _ =>
      apply assign_total; rewrite Forall_forall in Hall; apply Hall;
      repeat constructor
  end.
Qed.

(** When the call of [update_workflow] in [predict] returns: exactly when
    the seven nodes it writes to have inputs in the template, the control
    type is one the weights table knows, and the selected preprocessor
    label is one [preprocessor_map] knows.  A template that lacks one of
    the nodes, or a label outside the tables, makes the call raise. *)
Theorem workflow_returns_iff (workflow : json) (a : predict_args)
    (generated_seed : Z) (image : option string) :
  (∃ workflow', predict_workflow workflow a generated_seed image = Return workflow')
  ↔ Forall (has_inputs workflow) workflow_nodes
    ∧ arg_control_type a ∈ ["canny"; "soft_edge"; "depth"]
    ∧ selected_preprocessor a ∈ preprocessor_labels.
Proof.
  split.
  - intros [workflow' Hu]. by eapply workflow_requirements.
  - intros (Hall & Hct & Hlabel). by apply workflow_sufficient.
Qed.

(** ** The name of the stored control image *)

Lemma rfind_none (c : ascii) (p : string) :
  Str.rfind c p = None → Str.contains c p = false.
Proof.
  induction p as [|a p IH]; [done|]. simpl.
  destruct (Str.rfind c p); [done|].
  destruct (Ascii.eqb a c); [done|]. intros _. by rewrite IH.
Qed.

Lemma rfind_last (c : ascii) (p : string) (i : nat) :
  Str.rfind c p = Some i →
  ∃ e, Str.drop i p = String c e ∧ Str.contains c e = false.
Proof.
  revert i. induction p as [|a p IH]; intros i; [done|]. simpl.
  destruct (Str.rfind c p) as [j|] eqn:Hj.
  - intros [= <-]. by apply IH.
  - destruct (Ascii.eqb_spec a c) as [->|]; [|done].
    intros [= <-]. exists p. split; [done|]. by apply rfind_none.
Qed.

Lemma drop_add (n m : nat) (s : string) :
  Str.drop (n + m) s = Str.drop m (Str.drop n s).
Proof.
  revert s. induction n as [|n IH]; intros s; [done|].
  destruct s as [|a s]; [by destruct m|]. apply IH.
Qed.

Lemma take_drop (n : nat) (s : string) : Str.take n s +:+ Str.drop n s = s.
Proof.
  revert s. induction n as [|n IH]; intros s; [by destruct s|].
  destruct s as [|a s]; [done|]. simpl. by rewrite append_String, IH.
Qed.

Lemma splitext_extension (p : string) :
  (splitext p).1 +:+ (splitext p).2 = p
  ∧ ((splitext p).2 = ""
     ∨ ∃ e, (splitext p).2 = String "." e
            ∧ Str.contains "." e = false ∧ Str.contains "/" e = false).
Proof.
  unfold splitext.
  destruct (Str.rfind "." p) as [i|] eqn:Hdot; [|split; [apply append_empty_r|by left]].
  case_match eqn:Hcond; [|split; [apply append_empty_r|by left]].
  cbn [fst snd]. split; [apply take_drop|]. right.
  destruct (rfind_last _ _ _ Hdot) as (e & He & Hno).
  exists e. split_and!; [done..|].
  apply andb_true_iff in Hcond as [Hle%Nat.leb_le _].
  assert (Hslash : Str.contains "/" (Str.drop i p) = false).
  { destruct (Str.rfind "/" p) as [j|] eqn:Hsep.
    - destruct (rfind_last _ _ _ Hsep) as (e' & He' & Hno').
      replace i with (j + S (i - S j))%nat by lia.
      rewrite drop_add, He'. cbn [Str.drop]. by apply contains_drop.
    - by apply contains_drop, rfind_none. }
  rewrite He in Hslash. by apply orb_false_iff in Hslash as [_ ?].
Qed.

(** The name under which the control image is stored is the prefix
    followed by the extension of the uploaded name: a suffix of that name
    which is empty, or a ['.'] followed by characters that are neither
    ['.'] nor ['/'].  What the upload is called cannot lead the stored file
    out of the input directory or give it a second extension. *)
Theorem stored_name_extension (name prefix : string) :
  ∃ root extension,
    filename_with_extension name prefix = prefix +:+ extension
    ∧ name = root +:+ extension
    ∧ (extension = ""
       ∨ ∃ e, extension = String "." e
              ∧ Str.contains "." e = false ∧ Str.contains "/" e = false).
Proof.
  destruct (splitext_extension name) as [Hname Hext].
  exists (splitext name).1, (splitext name).2. by split_and!.
Qed.

End Configurator.


(** ** The further properties at concrete inputs *)

Section FurtherWitnesses.
Import DownloadExternalLora Urllib Predictor.
#[local] Existing Instance AsciiUnquote.instance.

Lemma huggingface_parse_outcomes_witness :
  extract_parts_from_huggingface_url "https://huggingface.co/org/model/tree/main"
  = Raise (IndexError "list index out of range").
Proof.
  apply (proj1 (huggingface_parse_outcomes
                  "https://huggingface.co/org/model/tree/main")
           ["org"; "model"; "tree"; "main"]).
  - vm_compute. reflexivity.
  - reflexivity.
Defined.

Lemma huggingface_names_collide_witness :
  download_from_huggingface (toy_externals (fetch_nothing TimedOut))
    "https://huggingface.co/org/model/resolve/dev/sub/weights.safetensors"
    {| fs := {[ dest_path "org_model_weights.safetensors" := "v1" ]};
       calls := [HfHubDownload "org/model" "main" "weights.safetensors" "TEMP_HF"] |}
  = ({| fs := {[ dest_path "org_model_weights.safetensors" := "v1" ]};
        calls := [HfHubDownload "org/model" "main" "weights.safetensors" "TEMP_HF"] |},
     Return "org_model_weights.safetensors").
Proof.
  apply (huggingface_names_collide
           "https://huggingface.co/org/model/resolve/main/weights.safetensors"
           "https://huggingface.co/org/model/resolve/dev/sub/weights.safetensors"
           ["org"; "model"; "resolve"; "main"; "weights.safetensors"]
           ["org"; "model"; "resolve"; "dev"; "sub"; "weights.safetensors"]
           ltac:(vm_compute; reflexivity) ltac:(vm_compute; reflexivity)
           ltac:(simpl; lia) ltac:(simpl; lia)
           eq_refl eq_refl eq_refl
           (serving_externals "v1") (toy_externals (fetch_nothing TimedOut))
           empty_world).
  vm_compute. reflexivity.
Defined.

Lemma huggingface_replicate_names_flat_witness :
  Str.contains "/" "replicate_lora_abcdef123.safetensors" = false
  ∧ dest_path "replicate_lora_abcdef123.safetensors"
    = "ComfyUI/models/loras/" +:+ "replicate_lora_abcdef123.safetensors".
Proof.
  apply (proj2 (huggingface_replicate_names_flat
                  "https://replicate.delivery/pbxt/abcdef123/trained_model.tar"
                  "replicate_lora_abcdef123.safetensors")).
  reflexivity.
Defined.

Lemma replicate_filename_outcomes_witness :
  get_replicate_filename "replicate.delivery"
  = Raise (IndexError "list index out of range").
Proof.
  apply (proj2 (replicate_filename_outcomes "replicate.delivery")). reflexivity.
Defined.

Lemma civitai_filename_outcomes_witness :
  ∃ stem,
    "civitai_12345_model.safetensors" = "civitai_" +:+ stem +:+ ".safetensors".
Proof.
  apply (proj2 (civitai_filename_outcomes
                  "https://civitai.com/api/download/models/12345?type=Model")).
  vm_compute. reflexivity.
Defined.

Lemma replicate_fetch_success_witness :
  ∃ w',
    download_from_replicate (toy_externals (fetch_writing "tar with lora" (Exited 1)))
      "https://replicate.delivery/pbxt/abcdef123/trained_model.tar" empty_world
    = (w', Return "replicate_lora_abcdef123.safetensors")
    ∧ fs w' !! dest_path "replicate_lora_abcdef123.safetensors" = Some "weights"
    ∧ fs w' !! scratch_path "replicate_lora_abcdef123.safetensors" = None.
Proof.
  destruct (replicate_fetch_success
              (toy_externals (fetch_writing "tar with lora" (Exited 1)))
              "https://replicate.delivery/pbxt/abcdef123/trained_model.tar"
              empty_world "replicate_lora_abcdef123.safetensors"
              {[ scratch_path "replicate_lora_abcdef123.safetensors"
                 := "tar with lora" ]}
              1 "tar with lora" "weights" {[ lora_entry := TarData "weights" ]}
              ltac:(reflexivity) ltac:(vm_compute; reflexivity)
              ltac:(vm_compute; reflexivity) ltac:(vm_compute; reflexivity)
              ltac:(reflexivity) ltac:(vm_compute; reflexivity))
    as (w' & Hd & Hdest & Hscratch & _).
  by exists w'.
Defined.

Lemma replicate_failure_keeps_files_witness :
  download_from_replicate
    (toy_externals (fetch_writing "tar without lora" (Exited 0)))
    "https://replicate.delivery/pbxt/abcdef123/trained_model.tar" empty_world
  = ({| fs := {[ scratch_path "replicate_lora_abcdef123.safetensors"
                 := "tar without lora" ]};
        calls :=
          [Subprocess
             ["pget"; "-f";
              "https://replicate.delivery/pbxt/abcdef123/trained_model.tar";
              scratch_path "replicate_lora_abcdef123.safetensors"] 600] |},
     Raise (KeyError ("filename '" +:+ lora_entry +:+ "' not found"))).
Proof.
  apply (proj1 (proj2 (proj2 (replicate_failure_keeps_files
           (toy_externals (fetch_writing "tar without lora" (Exited 0)))
           "https://replicate.delivery/pbxt/abcdef123/trained_model.tar"
           empty_world "replicate_lora_abcdef123.safetensors"
           {[ scratch_path "replicate_lora_abcdef123.safetensors"
              := "tar without lora" ]}
           0 ltac:(reflexivity) ltac:(vm_compute; reflexivity)
           ltac:(vm_compute; reflexivity)))
           "tar without lora" ∅ ltac:(vm_compute; reflexivity) ltac:(reflexivity))).
  vm_compute. reflexivity.
Defined.

Lemma huggingface_fetch_witness :
  ∃ w',
    download_from_huggingface (serving_externals "v1")
      "https://huggingface.co/org/model/resolve/main/sub/weights.safetensors"
      empty_world
    = (w', Return "org_model_weights.safetensors")
    ∧ fs w' !! dest_path "org_model_weights.safetensors" = Some "v1"
    ∧ calls w'
      = [HfHubDownload "org/model" "main" "sub/weights.safetensors" "TEMP_HF"].
Proof.
  destruct (proj1 (proj2 (huggingface_fetch (serving_externals "v1")
              "https://huggingface.co/org/model/resolve/main/sub/weights.safetensors"
              empty_world "org/model" "main" "weights.safetensors"
              ["sub"; "weights.safetensors"]
              {[ "TEMP_HF/sub/weights.safetensors" := "v1" ]}
              (Return "TEMP_HF/sub/weights.safetensors")
              ltac:(vm_compute; reflexivity) ltac:(vm_compute; reflexivity)
              ltac:(vm_compute; reflexivity)))
              "TEMP_HF/sub/weights.safetensors" "v1" eq_refl
              ltac:(vm_compute; reflexivity))
    as (w' & Hd & Hdest & _ & _ & Hcalls).
  by exists w'.
Defined.

Lemma download_again_is_cache_hit_witness :
  download (toy_externals (fetch_nothing TimedOut))
    "https://replicate.delivery/pbxt/abcdef123/trained_model.tar"
    {| fs := {[ dest_path "replicate_lora_abcdef123.safetensors" := "weights" ]};
       calls :=
         [Subprocess
            ["pget"; "-f";
             "https://replicate.delivery/pbxt/abcdef123/trained_model.tar";
             scratch_path "replicate_lora_abcdef123.safetensors"] 600] |}
  = ({| fs := {[ dest_path "replicate_lora_abcdef123.safetensors" := "weights" ]};
        calls :=
          [Subprocess
             ["pget"; "-f";
              "https://replicate.delivery/pbxt/abcdef123/trained_model.tar";
              scratch_path "replicate_lora_abcdef123.safetensors"] 600] |},
     Return "replicate_lora_abcdef123.safetensors").
Proof.
  apply (download_again_is_cache_hit
           (toy_externals (fetch_writing "tar with lora" (Exited 0)))
           (toy_externals (fetch_nothing TimedOut))
           "https://replicate.delivery/pbxt/abcdef123/trained_model.tar"
           empty_world).
  - right. reflexivity.
  - vm_compute. reflexivity.
Defined.

Lemma civitai_trusts_exit_status_witness :
  download_from_civitai (toy_externals (fetch_nothing (Exited 0)))
    "https://civitai.com/api/download/models/12345?type=Model" empty_world
  = ({| fs := ∅;
        calls :=
          [Subprocess
             ["pget"; "-f";
              "https://civitai.com/api/download/models/12345?type=Model";
              dest_path "civitai_12345_model.safetensors"] 600] |},
     Return "civitai_12345_model.safetensors").
Proof.
  apply (civitai_trusts_exit_status
           (toy_externals (fetch_nothing (Exited 0)))
           (toy_externals (fetch_nothing (Exited 0)))
           "https://civitai.com/api/download/models/12345?type=Model"
           empty_world "civitai_12345_model.safetensors" ∅
           ltac:(vm_compute; reflexivity) ltac:(vm_compute; reflexivity)
           ltac:(reflexivity)).
Defined.

Lemma workflow_written_fields_witness :
  input_field sample_result "3" "seed" = Return (JInt 42)
  ∧ input_field sample_result "3" "noise_seed" = Return (JInt 42)
  ∧ input_field sample_result "16" "image" = Return (JStr "control_image.png").
Proof.
  destruct (workflow_written_fields sample_workflow sample_args 42
              (Some "control_image.png") sample_result
              ltac:(vm_compute; reflexivity))
    as (_ & _ & Himage & _ & _ & Hnoise & Hseed & _).
  by split_and!.
Defined.

Lemma workflow_frame_witness :
  node_key sample_result "57" "class_type" = node_key sample_workflow "57" "class_type".
Proof.
  apply (proj1 (proj2 (workflow_frame sample_workflow sample_args 42
                         (Some "control_image.png") sample_result
                         ltac:(vm_compute; reflexivity)))).
  discriminate.
Defined.

Lemma workflow_returns_iff_witness :
  ∃ workflow',
    predict_workflow sample_workflow sample_args 42 (Some "control_image.png")
    = Return workflow'.
Proof.
  apply (proj2 (workflow_returns_iff sample_workflow sample_args 42
                  (Some "control_image.png"))).
  split_and!.
  - repeat constructor; eexists _, _, _; (split; [reflexivity|]); split; reflexivity.
  - repeat constructor.
  - unfold preprocessor_labels. change (selected_preprocessor sample_args)
      with "DepthAnything". repeat constructor.
Defined.

End FurtherWitnesses.
